(** * datadog-ci, [junit upload]: a shallow embedding of the command

    The development follows [src/commands/junit/renderer.ts] and
    [src/commands/junit/upload.ts].  Everything the command reaches outside
    these two files (the file system, the XML parser, the helpers that collect
    tags, the intake endpoint) is a method of the class [Host]; the two npm
    libraries whose control flow decides the outcome of an upload
    ([async-retry], [tiny-async-pool]) are written out as functions. *)

From stdpp Require Import gmap strings list fin_maps.
From Stdlib Require Import ZArith Lia.

Local Open Scope string_scope.
Local Open Scope list_scope.

(** ** JavaScript values, truthiness *)

(** The values [fast-xml-parser] puts under a root tag of the object it
    returns: text, numbers (only being zero matters below, so fractions are
    left out), booleans, an element with children (an object) and a repeated
    element (an array).  The code never looks inside the last two. *)
Inductive jsval : Type :=
| JStr (s : string)
| JNum (n : Z)
| JBool (b : bool)
| JObject
| JArray.

(** [!!s] for a string: every string but the empty one. *)
Definition truthy_str (s : string) : bool :=
  if decide (s = EmptyString) then false else true.

(** [!!v] for a parsed value. *)
Definition truthy_val (v : jsval) : bool :=
  match v with
  | JStr s => truthy_str s
  | JNum n => negb (n =? 0)%Z
  | JBool b => b
  | JObject => true
  | JArray => true
  end.

(** [!!o.k] for a property that may be missing ([undefined] is [None]). *)
Definition truthy {A} (t : A -> bool) (o : option A) : bool :=
  match o with
  | Some a => t a
  | None => false
  end.

(** [a || b] on optional strings, as in
    [process.env.DATADOG_API_KEY || process.env.DD_API_KEY]. *)
Definition js_or (a b : option string) : option string :=
  if truthy truthy_str a then a else b.

(** [xs.includes(x)] on numbers. *)
Definition includes (x : Z) (xs : list Z) : bool :=
  existsb (Z.eqb x) xs.
Arguments includes : simpl never.

(** ** Errors, output, and the monad of a command body *)

(** What the code looks at in a thrown value: its [message] and, for an axios
    error that reached the server, [response.status]. *)
Record error : Type := Error {
  message : string;
  response : option Z;
}.

Inductive res (A : Type) : Type :=
| Ok (a : A)
| Throw (e : error).
Arguments Ok {A} a.
Arguments Throw {A} e.

(** The payload of [./interfaces]. *)
Record Payload : Type := mkPayload {
  service : string;
  spanTags : gmap string string;
  xmlPath : string;
}.

(** One notable line on [stdout] or [stderr].  The colours and icons that
    [chalk] and [ICONS] add are left out; the data each line carries is kept. *)
Inductive line : Type :=
| InvalidFile (xmlPath : string) (errorMessage : string)
| FailedUpload (xmlPath : string) (err : error)
| RetriedUpload (xmlPath : string) (errorMessage : string) (attempt : nat)
| SuccessfulCommand (fileCount : nat)
| DryRunUpload (xmlPath : string)
| Upload (xmlPath : string)
| DryRunBanner
| StartingUpload (concurrency : nat)
| WillUploadFile (basePath : string)
| WillLookIn (basePaths : list string)
| ServiceLine (service : string)
| MissingApiKey
| Stderr (text : string).

(** A computation that writes lines and returns or throws. *)
Definition io (A : Type) : Type := list line * res A.

Definition io_ret {A} (a : A) : io A := ([], Ok a).

Definition io_bind {A B} (m : io A) (f : A -> io B) : io B :=
  match m with
  | (out, Ok a) => let '(out', r) := f a in (out ++ out', r)
  | (out, Throw e) => (out, Throw e)
  end.

Definition write (l : line) : io unit := ([l], Ok tt).
Definition write_all (ls : list line) : io unit := (ls, Ok tt).
Definition throw {A} (e : error) : io A := ([], Throw e).

(** [try { m } catch (error) { h error }]. *)
Definition try_catch {A} (m : io A) (h : error -> io A) : io A :=
  match m with
  | (out, Ok a) => (out, Ok a)
  | (out, Throw e) => let '(out', r) := h e in (out ++ out', r)
  end.

(** stdpp's [x ← m; k] and [m;; k] are used for sequencing. *)
#[export] Instance io_mret : MRet io := @io_ret.
#[export] Instance io_mbind : MBind io := fun A B f m => io_bind m f.

(** ** The host: what the command calls outside its two files *)

(** [process.env], as far as the command reads it. *)
Record ProcessEnv : Type := mkProcessEnv {
  DATADOG_API_KEY : option string;
  DD_API_KEY : option string;
  DD_ENV : option string;
  DD_TAGS : option string;
  DD_SERVICE : option string;
}.

(** The result of [xmlParser.validate]: [true], or an object whose [err.msg]
    is the parser's message. *)
Inductive validation : Type :=
| VTrue
| VErr (msg : string).

Class Host : Type := mkHost {
  (** [path.extname] and [path.posix.normalize] *)
  extname : string -> string;
  normalize : string -> string;
  (** [buildPath] of [helpers/utils] *)
  buildPath : string -> string -> string;
  (** [fs.existsSync], [glob.sync]; [fs.readFileSync] throws on a path it
      cannot read *)
  existsSync : string -> bool;
  globSync : string -> list string;
  readFileSync : string -> res string;
  (** [xmlParser.validate] and [xmlParser.parse] of [fast-xml-parser] *)
  xml_validate : string -> validation;
  xml_parse : string -> gmap string jsval;
  (** [getCISpanTags], [getGitMetadata], [parseTags] *)
  getCISpanTags : gmap string string;
  getGitMetadata : gmap string string;
  parseTags : list string -> gmap string string;
  (** the intake endpoint: what the request of the given attempt on the given
      file ends with, [None] for a success, [Some e] for the error thrown; the
      answer to one file does not depend on the requests made for others *)
  intake : string -> nat -> option error;
}.

(** ** renderer.ts *)

Module Renderer.

Definition renderInvalidFile (xmlPath : string) (errorMessage : string) : line :=
  InvalidFile xmlPath errorMessage.

Definition renderFailedUpload (payload : Payload) (errorMessage : error) : line :=
  FailedUpload (xmlPath payload) errorMessage.

Definition renderRetriedUpload (payload : Payload) (errorMessage : string)
    (attempt : nat) : line :=
  RetriedUpload (xmlPath payload) errorMessage attempt.

Definition renderSuccessfulCommand (fileCount : nat) : line :=
  SuccessfulCommand fileCount.

Definition renderUpload (payload : Payload) : line :=
  Upload (xmlPath payload).

Definition renderDryRunUpload (payload : Payload) : line :=
  DryRunUpload (xmlPath payload).

Definition renderCommandInfo `{Host} (basePaths : list string) (service : string)
    (concurrency : nat) (dryRun : bool) : list line :=
  (if dryRun then [DryRunBanner] else [])
  ++ [StartingUpload concurrency]
  ++ (match basePaths with
      | [basePath] =>
          if truthy_str (extname basePath) then [WillUploadFile basePath]
          else [WillLookIn basePaths]
      | _ => [WillLookIn basePaths]
      end)
  ++ [ServiceLine service].

End Renderer.
Import Renderer.

(** ** upload.ts: constants and the validator *)

Definition errorCodesNoRetry : list Z := [400; 403; 413]%Z.
Definition errorCodesStopUpload : list Z := [400; 403]%Z.

Definition rootTagMessage : string :=
  "Neither <testsuites> nor <testsuite> are the root tag.".

Section Validator.
Context `{Host}.

(** The check on a file's content, lines 82 to 91 of the source. *)
Definition validateContent (xmlFileContentString : string) : option string :=
  match xml_validate xmlFileContentString with
  | VErr msg => Some msg
  | VTrue =>
      let xmlFileJSON := xml_parse xmlFileContentString in
      if negb (truthy truthy_val (xmlFileJSON !! "testsuites"))
         && negb (truthy truthy_val (xmlFileJSON !! "testsuite"))
      then Some rootTagMessage
      else None
  end.

Definition validateXml (xmlFilePath : string) : res (option string) :=
  match readFileSync xmlFilePath with
  | Throw e => Throw e
  | Ok xmlFileContentString => Ok (validateContent xmlFileContentString)
  end.

(** "The content parses as well-formed XML". *)
Definition well_formed (xmlFileContentString : string) : Prop :=
  xml_validate xmlFileContentString = VTrue.

(** "The parsed root element is [tag]": the parsed object has an entry under
    [tag]. *)
Definition root_is (tag : string) (xmlFileContentString : string) : Prop :=
  is_Some (xml_parse xmlFileContentString !! tag).

(** The entry under [tag] is there and is not an empty value. *)
Definition root_filled (tag : string) (xmlFileContentString : string) : Prop :=
  truthy truthy_val (xml_parse xmlFileContentString !! tag) = true.

End Validator.

(** ** upload.ts: the command object *)

Module Config.
Record t : Type := mk {
  apiKey : option string;
  env : option string;
  envVarTags : option string;
}.
End Config.

Module Command.
Record t : Type := mk {
  basePaths : list string;
  config : Config.t;
  dryRun : bool;
  env : option string;
  maxConcurrency : nat;
  service : option string;
  tags : option (list string);
}.
End Command.

(** What [clipanion] fills in from the command line ([addOption]).
    [--max-concurrency] is taken as the number it denotes. *)
Record Options : Type := mkOptions {
  opt_service : option string;
  opt_env : option string;
  opt_dryRun : bool;
  opt_tags : option (list string);
  opt_basePaths : list string;
  opt_maxConcurrency : option nat;
}.

(** The field initialisers of the class, then the options. *)
Definition construct (penv : ProcessEnv) (o : Options) : Command.t :=
  {| Command.basePaths := opt_basePaths o;
     Command.config :=
       {| Config.apiKey := js_or (DATADOG_API_KEY penv) (DD_API_KEY penv);
          Config.env := DD_ENV penv;
          Config.envVarTags := DD_TAGS penv |};
     Command.dryRun := opt_dryRun o;
     Command.env := opt_env o;
     Command.maxConcurrency := default 20 (opt_maxConcurrency o);
     Command.service := opt_service o;
     Command.tags := opt_tags o |}.

Definition set_service (this : Command.t) (v : option string) : Command.t :=
  {| Command.basePaths := Command.basePaths this;
     Command.config := Command.config this;
     Command.dryRun := Command.dryRun this;
     Command.env := Command.env this;
     Command.maxConcurrency := Command.maxConcurrency this;
     Command.service := v;
     Command.tags := Command.tags this |}.

Definition set_basePaths (this : Command.t) (v : list string) : Command.t :=
  {| Command.basePaths := v;
     Command.config := Command.config this;
     Command.dryRun := Command.dryRun this;
     Command.env := Command.env this;
     Command.maxConcurrency := Command.maxConcurrency this;
     Command.service := Command.service this;
     Command.tags := Command.tags this |}.

Definition set_config_env (this : Command.t) (v : option string) : Command.t :=
  {| Command.basePaths := Command.basePaths this;
     Command.config :=
       {| Config.apiKey := Config.apiKey (Command.config this);
          Config.env := v;
          Config.envVarTags := Config.envVarTags (Command.config this) |};
     Command.dryRun := Command.dryRun this;
     Command.env := Command.env this;
     Command.maxConcurrency := Command.maxConcurrency this;
     Command.service := Command.service this;
     Command.tags := Command.tags this |}.

(** ** upload.ts: finding the files *)

(** [s.split(sep)] for a separator of one character. *)
Fixpoint split_on (sep : Ascii.ascii) (s : string) : list string :=
  match s with
  | EmptyString => [EmptyString]
  | String c s' =>
      if Ascii.eqb c sep then EmptyString :: split_on sep s'
      else match split_on sep s' with
           | [] => [String c EmptyString]
           | h :: t => String c h :: t
           end
  end.

Definition comma : Ascii.ascii := Ascii.ascii_of_nat 44.
Definition colon : Ascii.ascii := Ascii.ascii_of_nat 58.
Definition dot : Ascii.ascii := Ascii.ascii_of_nat 46.
Definition slash : Ascii.ascii := Ascii.ascii_of_nat 47.

(** [[...new Set(xs)]]: the elements in the order of their first occurrence. *)
Definition set_add (acc : list string) (x : string) : list string :=
  if bool_decide (x ∈ acc) then acc else acc ++ [x].

Definition set_spread (xs : list string) : list string :=
  fold_left set_add xs [].

(** [{...target, ...source}]: the keys of [source] overwrite. *)
Definition spread (target source : gmap string string) : gmap string string :=
  source ∪ target.

Section Files.
Context `{Host}.

(** The body of the [reduce] callback, lines 180 to 185. *)
Definition candidates (acc : list string) (basePath : string) : list string :=
  let isFile := truthy_str (extname basePath) in
  if isFile then acc ++ (if existsSync basePath then [basePath] else [])
  else acc ++ globSync (buildPath basePath "*.xml").

Definition jUnitXMLFiles (this : Command.t) : list string :=
  fold_left candidates (Command.basePaths this) [].

Definition envVarTagsOf (this : Command.t) : gmap string string :=
  match Config.envVarTags (Command.config this) with
  | Some s => if truthy_str s then parseTags (split_on comma s) else ∅
  | None => ∅
  end.

Definition cliTagsOf (this : Command.t) : gmap string string :=
  match Command.tags this with
  | Some ts => parseTags ts
  | None => ∅
  end.

(** [this.config.env ? {env: this.config.env} : {}]. *)
Definition envObject (this : Command.t) : gmap string string :=
  match Config.env (Command.config this) with
  | Some e => if truthy_str e then {[ "env" := e ]} else ∅
  | None => ∅
  end.

(** The object literal of lines 194 to 200. *)
Definition spanTagsOf (this : Command.t) : gmap string string :=
  let gitSpanTags := getGitMetadata in
  let ciSpanTags := getCISpanTags in
  let envVarTags := envVarTagsOf this in
  let cliTags := cliTagsOf this in
  spread (spread (spread (spread (spread ∅ gitSpanTags) ciSpanTags) cliTags)
            envVarTags) (envObject this).

(** The [filter] of lines 202 to 211: a file whose validation message is
    truthy is reported and dropped; a throw of [validateXml] ends the loop. *)
Fixpoint filterValid (files : list string) : io (list string) :=
  match files with
  | [] => mret []
  | jUnitXMLFilePath :: rest =>
      match validateXml jUnitXMLFilePath with
      | Throw e => throw e
      | Ok validationErrorMessage =>
          match validationErrorMessage with
          | Some msg =>
              if truthy_str msg then
                write (renderInvalidFile jUnitXMLFilePath msg);;
                filterValid rest
              else
                kept ← filterValid rest; mret (jUnitXMLFilePath :: kept)
          | None =>
              kept ← filterValid rest; mret (jUnitXMLFilePath :: kept)
          end
      end
  end.

Definition getMatchingJUnitXMLFiles (this : Command.t) : io (list Payload) :=
  let spanTags := spanTagsOf this in
  validUniqueFiles ← filterValid (set_spread (jUnitXMLFiles this));
  mret (map (fun jUnitXMLFilePath =>
               {| service := default EmptyString (Command.service this);
                  spanTags := spanTags;
                  xmlPath := jUnitXMLFilePath |})
            validUniqueFiles).

End Files.

(** ** async-retry, as [uploadJUnitXML] uses it *)

(** How one run of the retried function ends: it returns, it calls [bail], or
    it throws. *)
Inductive attempt_end : Type :=
| Resolved
| Bailed (e : error)
| Thrown (e : error).

Fixpoint count_message (m : string) (errors : list error) : nat :=
  match errors with
  | [] => 0
  | e :: rest =>
      (if bool_decide (message e = m) then 1 else 0) + count_message m rest
  end.

(** [RetryOperation.prototype.mainError]: the error whose message occurs most
    often among those recorded, the later one on a tie. *)
Fixpoint mainError_from (seen rest : list error) (mainError : option error)
    (mainErrorCount : nat) : option error :=
  match rest with
  | [] => mainError
  | e :: rest' =>
      let count := S (count_message (message e) seen) in
      if (mainErrorCount <=? count)%nat
      then mainError_from (seen ++ [e]) rest' (Some e) count
      else mainError_from (seen ++ [e]) rest' mainError mainErrorCount
  end.

Definition mainError (errors : list error) : option error :=
  mainError_from [] errors None 0.

(** The loop of [retry(fn, {onRetry, retries})].  [timeouts] is the number of
    delays left (it starts at [retries]), [num] the number of the attempt
    (from 1), [errors] what [op.retry] has recorded.  A throw with no delay
    left rejects with [op.mainError()]; otherwise [onRetry] runs and the next
    attempt is made.  The delays themselves are not modelled. *)
Fixpoint retry_from (fn : nat -> list line * attempt_end)
    (onRetry : error -> nat -> list line)
    (timeouts : nat) (num : nat) (errors : list error) : io unit :=
  let '(out, r) := fn num in
  match r with
  | Resolved => (out, Ok tt)
  | Bailed e => (out, Throw e)
  | Thrown e =>
      let errors' := errors ++ [e] in
      match timeouts with
      | 0 => (out, Throw (default e (mainError errors')))
      | S timeouts' =>
          let '(out', r') := retry_from fn onRetry timeouts' (S num) errors' in
          (out ++ onRetry e num ++ out', r')
      end
  end.

Definition retry (fn : nat -> list line * attempt_end)
    (onRetry : error -> nat -> list line) (retries : nat) : io unit :=
  retry_from fn onRetry retries 1 [].

(** ** upload.ts: one upload, the pool, the command *)

(** Which of the two [return]s of [uploadJUnitXML] was taken; both return
    [undefined] in the source. *)
Inductive upload_end : Type :=
| Sent
| Skipped (e : error).

Section Upload.
Context `{Host}.

(** Modelled from the spec: [api.uploadJUnitXML] of [./api] is not among the
    sources.  One call announces the file with [renderUpload] through the
    writer it is handed and performs one request, which succeeds or fails with
    a transport failure carrying an optional status code. *)
Definition api_uploadJUnitXML (jUnitXML : Payload) (num : nat) : io unit :=
  write (renderUpload jUnitXML);;
  match intake (xmlPath jUnitXML) num with
  | None => mret tt
  | Some e => throw e
  end.

(** The function handed to [retry], lines 223 to 244. *)
Definition attempt (this : Command.t) (jUnitXML : Payload) (num : nat)
    : list line * attempt_end :=
  if Command.dryRun this then ([renderDryRunUpload jUnitXML], Resolved)
  else
    match api_uploadJUnitXML jUnitXML num with
    | (out, Ok _) => (out, Resolved)
    | (out, Throw error) =>
        match response error with
        | Some status =>
            if negb (includes status errorCodesNoRetry)
            then (out, Thrown error)
            else (out, Bailed error)
        | None => (out, Bailed error)
        end
    end.

Definition uploadJUnitXML (this : Command.t) (jUnitXML : Payload)
    : io upload_end :=
  try_catch
    (retry (attempt this jUnitXML)
           (fun e attempt => [renderRetriedUpload jUnitXML (message e) attempt])
           5;;
     mret Sent)
    (fun error =>
       write (renderFailedUpload jUnitXML error);;
       match response error with
       | Some status =>
           if negb (includes status errorCodesStopUpload)
           then mret (Skipped error)
           else throw error
       | None => throw error
       end).

(** [asyncPool(poolLimit, array, iteratorFn)] at the schedule in which every
    upload ends before the next one starts (the one of [poolLimit = 1]).  What
    an upload writes and how it ends depends on its own payload only, so the
    results and whether the pool rejects are those of every schedule; the
    order of the lines of different files, the uploads started before a
    rejection is seen, and the error thrown when several uploads throw, are
    those of this schedule.  How many uploads run at once is not modelled. *)
Fixpoint asyncPool {A B} (poolLimit : nat) (array : list A)
    (iteratorFn : A -> io B) : io (list B) :=
  match array with
  | [] => mret []
  | item :: rest =>
      r ← iteratorFn item;
      rs ← asyncPool poolLimit rest iteratorFn;
      mret (r :: rs)
  end.

Definition getApiHelper (this : Command.t) : io unit :=
  if negb (truthy truthy_str (Config.apiKey (Command.config this)))
  then write MissingApiKey;; throw (Error "API key is missing" None)
  else mret tt.

(** The three assignments [execute] makes to the command object. *)
Definition settle_service (penv : ProcessEnv) (this : Command.t) : Command.t :=
  if negb (truthy truthy_str (Command.service this))
  then set_service this (DD_SERVICE penv) else this.

Definition settle_env (this : Command.t) : Command.t :=
  if negb (truthy truthy_str (Config.env (Command.config this)))
  then set_config_env this (Command.env this) else this.

Definition settle_basePaths (this : Command.t) : Command.t :=
  set_basePaths this (map normalize (Command.basePaths this)).

(** Lines 157 to 164 of [execute]: the pool and the summary.  The duration is
    not modelled. *)
Definition uploadAll (this : Command.t) (payloads : list Payload) : io nat :=
  asyncPool (Command.maxConcurrency this) payloads (uploadJUnitXML this);;
  write (renderSuccessfulCommand (length payloads));;
  mret 0.

(** [execute]; the value returned is the exit code ([undefined] is 0). *)
Definition execute (penv : ProcessEnv) (this : Command.t) : io nat :=
  let this := settle_service penv this in
  if negb (truthy truthy_str (Command.service this))
  then write (Stderr "Missing service");; mret 1
  else
    match Command.basePaths this with
    | [] => write (Stderr "Missing basePath");; mret 1
    | _ :: _ =>
        let this := settle_env this in
        getApiHelper this;;
        let this := settle_basePaths this in
        write_all (renderCommandInfo (Command.basePaths this)
                     (default EmptyString (Command.service this))
                     (Command.maxConcurrency this) (Command.dryRun this));;
        payloads ← getMatchingJUnitXMLFiles this;
        uploadAll this payloads
    end.

(** The command object as [getMatchingJUnitXMLFiles] and [uploadJUnitXML]
    see it. *)
Definition settled (penv : ProcessEnv) (this : Command.t) : Command.t :=
  settle_basePaths (settle_env (settle_service penv this)).

(** [execute] gets as far as looking for files: a service, a base path and
    an API key are there. *)
Definition ready (penv : ProcessEnv) (this : Command.t) : Prop :=
  truthy truthy_str (Command.service (settle_service penv this)) = true
  /\ Command.basePaths this <> []
  /\ truthy truthy_str (Config.apiKey (Command.config this)) = true.

(** The command line run: construct, then execute. *)
Definition run (penv : ProcessEnv) (o : Options) : io nat :=
  execute penv (construct penv o).

End Upload.

(** ** Reading a run *)

Definition is_sent (r : upload_end) : bool :=
  match r with Sent => true | Skipped _ => false end.

Definition is_skipped (r : upload_end) : bool :=
  match r with Sent => false | Skipped _ => true end.

(** The uploads that completed, and those that were skipped. *)
Definition sent_count (rs : list upload_end) : nat :=
  length (List.filter is_sent rs).

Definition skipped_count (rs : list upload_end) : nat :=
  length (List.filter is_skipped rs).

(** The count in the summary, when the summary is the last line written. *)
Definition reported_count (out : list line) : option nat :=
  match last out with
  | Some (SuccessfulCommand n) => Some n
  | _ => None
  end.

(** The requests made for a file: one [renderUpload] line each. *)
Fixpoint upload_requests (path : string) (out : list line) : nat :=
  match out with
  | [] => 0
  | Upload p :: rest =>
      (if bool_decide (p = path) then 1 else 0) + upload_requests path rest
  | _ :: rest => upload_requests path rest
  end.

(** The retry notices of a file, in the order written: attempt and reason. *)
Fixpoint retry_notices (path : string) (out : list line) : list (nat * string) :=
  match out with
  | [] => []
  | RetriedUpload p msg n :: rest =>
      if bool_decide (p = path) then (n, msg) :: retry_notices path rest
      else retry_notices path rest
  | _ :: rest => retry_notices path rest
  end.

(** What [uploadJUnitXML] writes while the attempts from [num] on fail with
    the errors [es] and are retried. *)
Fixpoint retried (jUnitXML : Payload) (num : nat) (es : list error) : list line :=
  match es with
  | [] => []
  | e :: es' =>
      renderUpload jUnitXML :: renderRetriedUpload jUnitXML (message e) num
        :: retried jUnitXML (S num) es'
  end.

(** The source of highest precedence that defines [k], first in the list. *)
Fixpoint highest (sources : list (gmap string string)) (k : string)
    : option string :=
  match sources with
  | [] => None
  | m :: rest =>
      match m !! k with
      | Some v => Some v
      | None => highest rest k
      end
  end.

(** The test of the outer [catch]: the error stops the whole upload. *)
Definition stops_upload (e : error) : bool :=
  match response e with
  | Some status => includes status errorCodesStopUpload
  | None => true
  end.

(** How an upload ends once [retry] has rejected with [e]. *)
Definition after_rejection (e : error) : res upload_end :=
  if stops_upload e then Throw e else Ok (Skipped e).

(** [cons] under a result. *)
Definition res_cons {A} (a : A) (r : res (list A)) : res (list A) :=
  match r with
  | Ok l => Ok (a :: l)
  | Throw e => Throw e
  end.

(** A status the retry loop goes on after. *)
Definition retryable (e : error) : Prop :=
  exists status, response e = Some status
                 /\ includes status errorCodesNoRetry = false.

Section Reading.
Context `{Host}.

(** What one base path adds to the candidates. *)
Definition contribution (basePath : string) : list string :=
  if truthy_str (extname basePath)
  then (if existsSync basePath then [basePath] else [])
  else globSync (buildPath basePath "*.xml").

(** The filter keeps a file. *)
Definition passes (jUnitXMLFilePath : string) : bool :=
  match validateXml jUnitXMLFilePath with
  | Ok m => negb (truthy truthy_str m)
  | Throw _ => false
  end.

(** The filter reports a file as invalid. *)
Definition fails_validation (jUnitXMLFilePath : string) : Prop :=
  exists msg, validateXml jUnitXMLFilePath = Ok (Some msg)
              /\ truthy_str msg = true.

(** The attempts [1 .. length es] on a file fail with [es], each with a status
    outside [errorCodesNoRetry]. *)
Definition fails_retryably (path : string) (es : list error) : Prop :=
  forall i e, es !! i = Some e -> intake path (S i) = Some e /\ retryable e.

End Reading.

(** ** A sample host

    A small disk and a table of what the parser answers on its files; the
    statements below that need a concrete input are run on it. *)

Module Sample.

Fixpoint drop_slashes (cs : list Ascii.ascii) : list Ascii.ascii :=
  match cs with
  | c :: rest => if Ascii.eqb c slash then drop_slashes rest else cs
  | [] => []
  end.

Fixpoint upto_slash (cs : list Ascii.ascii) : list Ascii.ascii :=
  match cs with
  | c :: rest => if Ascii.eqb c slash then [] else c :: upto_slash rest
  | [] => []
  end.

(** Splits at the first dot: what is before it, and what is after it when
    there is one. *)
Fixpoint at_dot (cs : list Ascii.ascii)
    : list Ascii.ascii * option (list Ascii.ascii) :=
  match cs with
  | [] => ([], None)
  | c :: rest =>
      if Ascii.eqb c dot then ([], Some rest)
      else let '(before, after) := at_dot rest in (c :: before, after)
  end.

(** [path.posix.extname]: from the last dot of the last component to its end;
    empty when there is no dot, when the only dot opens the component, and for
    the component [..]. *)
Definition extname_posix (p : string) : string :=
  let name := upto_slash (drop_slashes (rev (String.list_ascii_of_string p))) in
  match at_dot name with
  | (_, None) => EmptyString
  | (_, Some []) => EmptyString
  | (ext, Some stem) =>
      if bool_decide (ext = [] /\ stem = [dot]) then EmptyString
      else String.string_of_list_ascii (dot :: rev ext)
  end.

Definition suites : string :=
  "<testsuites><testsuite><testcase/></testsuite></testsuites>".
Definition suite : string := "<testsuite><testcase/></testsuite>".
Definition empty_suite : string := "<testsuite></testsuite>".
Definition page : string := "<html><body/></html>".
Definition scribble : string := "not xml".

Definition disk : list (string * string) :=
  [ ("reports/ok.xml", suites);
    ("reports/single.xml", suite);
    ("reports/empty.xml", empty_suite);
    ("reports/page.xml", page);
    ("reports/scribble.xml", scribble);
    ("reports/notes.txt", scribble);
    ("reports/old/deep.xml", suite);
    ("results", suite);
    ("nightly.v2/a.xml", suite) ].

Definition directories : list string := ["reports"; "reports/old"; "nightly.v2"].

Definition lookup_file (p : string) : option string :=
  snd <$> List.find (fun entry => bool_decide (fst entry = p)) disk.

Definition exists_on_disk (p : string) : bool :=
  bool_decide (is_Some (lookup_file p)) || bool_decide (p ∈ directories).

Definition read_from_disk (p : string) : res string :=
  match lookup_file p with
  | Some content => Ok content
  | None =>
      if bool_decide (p ∈ directories)
      then Throw (Error "EISDIR: illegal operation on a directory, read" None)
      else Throw (Error "ENOENT: no such file or directory" None)
  end.

(** [glob.sync] on the one-level patterns the command builds. *)
Definition glob_on_disk (pattern : string) : list string :=
  if bool_decide (pattern = "reports/*.xml")
  then ["reports/empty.xml"; "reports/ok.xml"; "reports/page.xml";
        "reports/scribble.xml"; "reports/single.xml"]
  else if bool_decide (pattern = "nightly.v2/*.xml") then ["nightly.v2/a.xml"]
  else [].

Definition join_path (dir base : string) : string := dir +:+ "/" +:+ base.

Definition validate_table (content : string) : validation :=
  if bool_decide (content = scribble) then VErr "char 'n' is not expected."
  else VTrue.

Definition parse_table (content : string) : gmap string jsval :=
  if bool_decide (content = suites) then {[ "testsuites" := JObject ]}
  else if bool_decide (content = suite) then {[ "testsuite" := JObject ]}
  else if bool_decide (content = empty_suite) then {[ "testsuite" := JStr EmptyString ]}
  else if bool_decide (content = page) then {[ "html" := JObject ]}
  else ∅.

(** [parseTags]: [key:value] strings, those without a key or a value dropped. *)
Definition parse_tags (tags : list string) : gmap string string :=
  fold_left (fun acc tag =>
               match split_on colon tag with
               | key :: value :: _ =>
                   if truthy_str key && truthy_str value
                   then <[key := value]> acc else acc
               | _ => acc
               end) tags ∅.

Definition ciTags : gmap string string :=
  {[ "ci.provider.name" := "github"; "git.branch" := "ci-branch" ]}.

Definition gitTags : gmap string string :=
  {[ "git.branch" := "main"; "git.commit.sha" := "abc123" ]}.

(** The endpoint answers [answers] on the file [path] and accepts every other
    file. *)
Definition host (path : string) (answers : nat -> option error) : Host :=
  {| extname := extname_posix;
     normalize := fun p => p;
     buildPath := join_path;
     existsSync := exists_on_disk;
     globSync := glob_on_disk;
     readFileSync := read_from_disk;
     xml_validate := validate_table;
     xml_parse := parse_table;
     getCISpanTags := ciTags;
     getGitMetadata := gitTags;
     parseTags := parse_tags;
     intake := fun p n => if bool_decide (p = path) then answers n else None |}.

Definition status (code : Z) : error :=
  Error "Request failed" (Some code).

Definition offline : error := Error "connect ECONNREFUSED" None.

Definition always (e : error) : nat -> option error := fun _ => Some e.

Definition penv : ProcessEnv :=
  {| DATADOG_API_KEY := Some "key"; DD_API_KEY := None; DD_ENV := None;
     DD_TAGS := None; DD_SERVICE := None |}.

Definition options (paths : list string) : Options :=
  {| opt_service := Some "shop"; opt_env := None; opt_dryRun := false;
     opt_tags := None; opt_basePaths := paths; opt_maxConcurrency := None |}.

Definition payload (path : string) : Payload :=
  {| service := "shop"; spanTags := ∅; xmlPath := path |}.

End Sample.

(** ** Reading the output *)

(** The file a line is about, for the lines that are about one file. *)
Definition line_path (l : line) : option string :=
  match l with
  | InvalidFile p _ => Some p
  | FailedUpload p _ => Some p
  | RetriedUpload p _ _ => Some p
  | DryRunUpload p => Some p
  | Upload p => Some p
  | _ => None
  end.

Definition is_failure_line (l : line) : bool :=
  match l with FailedUpload _ _ => true | _ => false end.

Definition is_summary (l : line) : bool :=
  match l with SuccessfulCommand _ => true | _ => false end.

Definition is_invalid_line (l : line) : bool :=
  match l with InvalidFile _ _ => true | _ => false end.

(** The lines only [uploadJUnitXML] and the summary write. *)
Definition upload_phase (l : line) : bool :=
  match l with
  | FailedUpload _ _ => true
  | RetriedUpload _ _ _ => true
  | DryRunUpload _ => true
  | Upload _ => true
  | SuccessfulCommand _ => true
  | _ => false
  end.

(** The line [api.uploadJUnitXML] writes with each request. *)
Definition is_request (l : line) : bool :=
  match l with Upload _ => true | _ => false end.

(** The requests a run has made, over all files. *)
Definition requests_made (out : list line) : nat :=
  length (List.filter is_request out).

(** The messages of the invalid-file lines about a file, in the order
    written. *)
Fixpoint invalid_reports (path : string) (out : list line) : list string :=
  match out with
  | [] => []
  | InvalidFile p msg :: rest =>
      if bool_decide (p = path) then msg :: invalid_reports path rest
      else invalid_reports path rest
  | _ :: rest => invalid_reports path rest
  end.

(** The character occurs in the string. *)
Fixpoint has_char (c : Ascii.ascii) (s : string) : bool :=
  match s with
  | EmptyString => false
  | String c' s' => Ascii.eqb c' c || has_char c s'
  end.

(** [pieces.join(sep)] for a separator of one character. *)
Definition join_on (sep : Ascii.ascii) (pieces : list string) : string :=
  String.concat (String sep EmptyString) pieces.

(** The command info [execute] writes once its checks have passed. *)
Definition info_of `{Host} (penv : ProcessEnv) (this : Command.t) : list line :=
  renderCommandInfo (Command.basePaths (settled penv this))
    (default EmptyString (Command.service (settled penv this)))
    (Command.maxConcurrency (settled penv this))
    (Command.dryRun (settled penv this)).

(** Payloads can be compared. *)
#[export] Instance Payload_eq_dec : EqDecision Payload.
Proof. solve_decision. Defined.

(** * Properties *)

(** ** Truthiness and the monad *)

Lemma truthy_str_true (s : string) : truthy_str s = true <-> s <> EmptyString.
Proof. unfold truthy_str. destruct (decide (s = EmptyString)); split; congruence. Qed.

Lemma truthy_str_false (s : string) : truthy_str s = false <-> s = EmptyString.
Proof. unfold truthy_str. destruct (decide (s = EmptyString)); split; congruence. Qed.

Ltac io_unfold :=
  unfold mbind, io_mbind, io_bind, mret, io_mret, io_ret, write, write_all,
    throw, try_catch in *.

Lemma io_bind_ok {A B} (m : io A) (f : A -> io B) out (b : B) :
  m ≫= f = (out, Ok b) ->
  exists o1 a o2, m = (o1, Ok a) /\ f a = (o2, Ok b) /\ out = o1 ++ o2.
Proof.
  destruct m as [o1 [a|e]]; io_unfold; [|discriminate].
  destruct (f a) as [o2 r] eqn:Hf. intros [= <- ->]. eauto 6.
Qed.

(** ** The validator *)

Section ValidatorFacts.
Context `{Host}.

Lemma validateContent_None (content : string) :
  validateContent content = None <->
  well_formed content
  /\ (root_filled "testsuites" content \/ root_filled "testsuite" content).
Proof.
  unfold validateContent, well_formed, root_filled.
  destruct (xml_validate content); [|split; [discriminate | intros [[=] _]]].
  destruct (truthy truthy_val (xml_parse content !! "testsuites")),
    (truthy truthy_val (xml_parse content !! "testsuite")); simpl;
    split; try discriminate; try tauto; intros [_ [[=]|[=]]].
Qed.

End ValidatorFacts.

(** The validator as it is coded.  A readable file passes [validateXml]
    exactly when its content is well-formed for the parser and the parsed
    object holds a non-empty value under [testsuites] or under [testsuite];
    when the parser rejects the content the message returned is the parser's
    own; when the content is well-formed and neither entry is filled the
    message is the fixed one that names the two root tags. *)
Theorem validateXml_spec `{Host} (xmlFilePath content : string) :
  readFileSync xmlFilePath = Ok content ->
  (validateXml xmlFilePath = Ok None <->
     well_formed content
     /\ (root_filled "testsuites" content \/ root_filled "testsuite" content))
  /\ (forall msg, xml_validate content = VErr msg ->
        validateXml xmlFilePath = Ok (Some msg))
  /\ (well_formed content ->
      ~ (root_filled "testsuites" content \/ root_filled "testsuite" content) ->
      validateXml xmlFilePath = Ok (Some rootTagMessage)).
Proof.
  intros Hread. unfold validateXml. rewrite Hread.
  split; [split|split].
  - intros [= Hv]. by apply validateContent_None.
  - intros Hv. f_equal. by apply validateContent_None.
  - intros msg Hmsg. unfold validateContent. by rewrite Hmsg.
  - intros Hwf Hroot. f_equal. unfold validateContent.
    unfold well_formed in Hwf. rewrite Hwf. unfold root_filled in Hroot.
    destruct (truthy truthy_val (xml_parse content !! "testsuites")),
      (truthy truthy_val (xml_parse content !! "testsuite")); simpl; tauto.
Qed.

Lemma validateXml_spec_witness :
  let h := Sample.host "reports/ok.xml" (fun _ => None) in
  (@validateXml h "reports/empty.xml" = Ok None <->
     @well_formed h Sample.empty_suite
     /\ (@root_filled h "testsuites" Sample.empty_suite
         \/ @root_filled h "testsuite" Sample.empty_suite))
  /\ (forall msg, @xml_validate h Sample.empty_suite = VErr msg ->
        @validateXml h "reports/empty.xml" = Ok (Some msg))
  /\ (@well_formed h Sample.empty_suite ->
      ~ (@root_filled h "testsuites" Sample.empty_suite
         \/ @root_filled h "testsuite" Sample.empty_suite) ->
      @validateXml h "reports/empty.xml" = Ok (Some rootTagMessage)).
Proof.
  intros h.
  apply (@validateXml_spec h "reports/empty.xml" Sample.empty_suite).
  reflexivity.
Defined.

(** C7, on the file that shows the defect.  The file [reports/empty.xml]
    holds [<testsuite></testsuite>]: it can be read, it is well-formed, and its
    root element is [testsuite], which the parser gives as an empty string.
    [validateXml] tests the truthiness of that value, not the presence of the
    root tag, and answers with the message that says the root tag is neither
    of the two: the file is refused, against the claim and against the
    message itself. *)
Theorem validateXml_rejects_empty_root :
  let h := Sample.host "reports/ok.xml" (fun _ => None) in
  @readFileSync h "reports/empty.xml" = Ok Sample.empty_suite
  /\ @well_formed h Sample.empty_suite
  /\ @root_is h "testsuite" Sample.empty_suite
  /\ @validateXml h "reports/empty.xml" = Ok (Some rootTagMessage)
  /\ @passes h "reports/empty.xml" = false.
Proof.
  intros h. split_and!; try reflexivity.
  unfold root_is. exists (JStr EmptyString). reflexivity.
Qed.

(** ** Finding the files *)

Lemma set_add_fold (xs acc : list string) :
  NoDup acc ->
  NoDup (fold_left set_add xs acc)
  /\ (forall x, x ∈ fold_left set_add xs acc <-> x ∈ acc \/ x ∈ xs).
Proof.
  revert acc. induction xs as [|y xs IH]; intros acc Hnd; simpl.
  - split; [done|]. intros x. rewrite elem_of_nil. tauto.
  - unfold set_add at 2 4. case_bool_decide as Hy.
    + destruct (IH acc Hnd) as [Hnd' Hin]. split; [done|].
      intros x. rewrite Hin, elem_of_cons. split; [tauto|].
      intros [?|[->|?]]; tauto.
    + assert (Hnd1 : NoDup (acc ++ [y])).
      { apply NoDup_app. split_and!; [done| |apply NoDup_singleton].
        intros x Hx ->%list_elem_of_singleton. done. }
      destruct (IH _ Hnd1) as [Hnd' Hin]. split; [done|].
      intros x. rewrite Hin, elem_of_app, list_elem_of_singleton, elem_of_cons.
      tauto.
Qed.

Lemma set_spread_NoDup (xs : list string) : NoDup (set_spread xs).
Proof. apply set_add_fold, NoDup_nil_2. Qed.

Lemma set_spread_elem_of (xs : list string) (x : string) :
  x ∈ set_spread xs <-> x ∈ xs.
Proof.
  unfold set_spread. destruct (set_add_fold xs [] (NoDup_nil_2)) as [_ Hin].
  rewrite Hin, elem_of_nil. tauto.
Qed.

Section FilesFacts.
Context `{Host}.

Lemma candidates_contribution (acc : list string) (basePath : string) :
  candidates acc basePath = acc ++ contribution basePath.
Proof. unfold candidates, contribution. by destruct (truthy_str _). Qed.

Lemma candidates_fold (basePaths acc : list string) (x : string) :
  x ∈ fold_left candidates basePaths acc <->
  x ∈ acc \/ exists b, b ∈ basePaths /\ x ∈ contribution b.
Proof.
  revert acc. induction basePaths as [|b bs IH]; intros acc; simpl.
  - split; [tauto|]. intros [?|(b & Hb & _)]; [done|]. by apply elem_of_nil in Hb.
  - rewrite IH, candidates_contribution, elem_of_app. split.
    + intros [[?|?]|(b' & Hb' & ?)]; [tauto| |].
      * right. exists b. split; [apply list_elem_of_here|done].
      * right. exists b'. split; [by apply list_elem_of_further|done].
    + intros [?|(b' & Hb' & ?)]; [tauto|].
      apply elem_of_cons in Hb' as [->|Hb']; [tauto|]. right. eauto.
Qed.

Lemma jUnitXMLFiles_elem_of (this : Command.t) (x : string) :
  x ∈ jUnitXMLFiles this <->
  exists b, b ∈ Command.basePaths this
    /\ ((extname b <> EmptyString /\ existsSync b = true /\ x = b)
        \/ (extname b = EmptyString /\ x ∈ globSync (buildPath b "*.xml"))).
Proof.
  unfold jUnitXMLFiles. rewrite candidates_fold, elem_of_nil.
  split.
  - intros [[]|(b & Hb & Hx)]. exists b. split; [done|].
    unfold contribution in Hx. destruct (truthy_str (extname b)) eqn:He.
    + left. apply truthy_str_true in He.
      destruct (existsSync b); [|by apply elem_of_nil in Hx].
      by apply list_elem_of_singleton in Hx.
    + right. by apply truthy_str_false in He.
  - intros (b & Hb & Hx). right. exists b. split; [done|].
    unfold contribution. destruct Hx as [(He & Hex & ->)|(He & Hx)].
    + apply truthy_str_true in He. rewrite He, Hex. apply list_elem_of_here.
    + apply truthy_str_false in He. by rewrite He.
Qed.

Lemma passes_not_fails (x : string) (m : option string) :
  validateXml x = Ok m -> (passes x = true <-> ~ fails_validation x).
Proof.
  intros Hv. unfold passes, fails_validation. rewrite Hv. split.
  - intros Hp (msg & [= ->] & Ht). simpl in Hp. by rewrite Ht in Hp.
  - intros Hn. destruct m as [msg|]; [|done]. simpl.
    destruct (truthy_str msg) eqn:Ht; [|done]. exfalso. eauto.
Qed.

(** The filter returns when every file can be read, and then keeps the files
    that pass, in order. *)
Lemma filterValid_total (files : list string) :
  (forall x, x ∈ files -> exists c, readFileSync x = Ok c) ->
  exists out, filterValid files = (out, Ok (List.filter passes files)).
Proof.
  induction files as [|f rest IH]; intros Hread; simpl.
  - by eexists.
  - destruct (Hread f (list_elem_of_here _ _)) as [c Hc].
    destruct IH as [out IH].
    { intros x Hx. apply Hread. by apply list_elem_of_further. }
    unfold passes at 1. unfold validateXml. rewrite Hc. simpl.
    destruct (validateContent c) as [msg|]; simpl.
    + destruct (truthy_str msg); simpl; rewrite IH; io_unfold; by eexists.
    + rewrite IH. io_unfold. by eexists.
Qed.

End FilesFacts.

(** C6, amended.  When every candidate file can be read,
    [getMatchingJUnitXMLFiles] returns, and the paths of the payloads it
    returns have no duplicates and
    are exactly the candidates that do not fail validation; a candidate is
    either a base path with an extension that exists on disk, or a match of
    the one-level pattern [*.xml] under a base path without one.  Base paths
    given twice, or a file reached twice, give one payload, and a base path
    that does not exist adds nothing and raises nothing.  (Which base paths
    count as files is decided by the extension.) *)
Theorem getMatchingJUnitXMLFiles_payloads `{Host} (this : Command.t) :
  (forall x, x ∈ jUnitXMLFiles this -> exists c, readFileSync x = Ok c) ->
  exists out payloads,
    getMatchingJUnitXMLFiles this = (out, Ok payloads)
    /\ NoDup (xmlPath <$> payloads)
    /\ (forall x, x ∈ (xmlPath <$> payloads) <->
          x ∈ jUnitXMLFiles this /\ ~ fails_validation x)
    /\ (forall x, x ∈ jUnitXMLFiles this <->
          exists b, b ∈ Command.basePaths this
            /\ ((extname b <> EmptyString /\ existsSync b = true /\ x = b)
                \/ (extname b = EmptyString
                    /\ x ∈ globSync (buildPath b "*.xml")))).
Proof.
  intros Hread.
  destruct (filterValid_total (set_spread (jUnitXMLFiles this))) as [out Hf].
  { intros x Hx. apply Hread. by apply set_spread_elem_of. }
  unfold getMatchingJUnitXMLFiles. rewrite Hf. io_unfold. simpl.
  eexists _, _. split; [reflexivity|].
  rewrite <- list_fmap_compose. simpl.
  change (fmap _ ?l) with (id <$> l). rewrite list_fmap_id.
  split_and!.
  - apply NoDup_ListNoDup, List.NoDup_filter, NoDup_ListNoDup, set_spread_NoDup.
  - intros x. rewrite list_elem_of_In, List.filter_In, <- list_elem_of_In.
    rewrite set_spread_elem_of. split.
    + intros [Hx Hp]. split; [done|].
      destruct (Hread x Hx) as [c Hc].
      eapply passes_not_fails; [|done]. unfold validateXml. by rewrite Hc.
    + intros [Hx Hp]. split; [done|].
      destruct (Hread x Hx) as [c Hc].
      eapply passes_not_fails; [|done]. unfold validateXml. by rewrite Hc.
  - apply jUnitXMLFiles_elem_of.
Qed.

Lemma getMatchingJUnitXMLFiles_payloads_witness :
  let h := Sample.host "reports/ok.xml" (fun _ => None) in
  let this :=
    construct Sample.penv
      (Sample.options ["reports"; "reports/ok.xml"; "missing.xml"; "reports"]) in
  exists out payloads,
    @getMatchingJUnitXMLFiles h this = (out, Ok payloads)
    /\ NoDup (xmlPath <$> payloads)
    /\ (forall x, x ∈ (xmlPath <$> payloads) <->
          x ∈ @jUnitXMLFiles h this /\ ~ @fails_validation h x)
    /\ (forall x, x ∈ @jUnitXMLFiles h this <->
          exists b, b ∈ Command.basePaths this
            /\ ((@extname h b <> EmptyString /\ @existsSync h b = true /\ x = b)
                \/ (@extname h b = EmptyString
                    /\ x ∈ @globSync h (@buildPath h b "*.xml")))).
Proof.
  intros h this. apply (@getMatchingJUnitXMLFiles_payloads h this).
  apply Forall_forall.
  assert (Hfiles : @jUnitXMLFiles h this =
            ["reports/empty.xml"; "reports/ok.xml"; "reports/page.xml";
             "reports/scribble.xml"; "reports/single.xml"; "reports/ok.xml";
             "reports/empty.xml"; "reports/ok.xml"; "reports/page.xml";
             "reports/scribble.xml"; "reports/single.xml"])
    by (vm_compute; reflexivity).
  rewrite Hfiles.
  repeat (apply Forall_cons_2; [eexists; reflexivity|]). apply Forall_nil_2.
Defined.

(** C10.  Whether a base path is a file is decided by its extension alone: a
    base path with a non-empty extension adds itself when it exists and is
    never handed to the glob, whatever it names on disk; a base path with an
    empty extension adds the matches of [*.xml] under it and never itself.
    As the glob returns names that match [*.xml], which have an extension, no
    path without an extension is ever a candidate, even if it is an existing
    file given as a base path. *)
Theorem candidate_file_iff_extension `{Host} (this : Command.t) :
  (forall acc b, extname b <> EmptyString ->
     candidates acc b = acc ++ (if existsSync b then [b] else []))
  /\ (forall acc b, extname b = EmptyString ->
        candidates acc b = acc ++ globSync (buildPath b "*.xml"))
  /\ ((forall d x, x ∈ globSync (buildPath d "*.xml") -> extname x <> EmptyString) ->
      forall b, extname b = EmptyString -> b ∉ jUnitXMLFiles this).
Proof.
  split_and!.
  - intros acc b He. unfold candidates.
    apply truthy_str_true in He. by rewrite He.
  - intros acc b He. unfold candidates.
    apply truthy_str_false in He. by rewrite He.
  - intros Hglob b He Hb.
    apply jUnitXMLFiles_elem_of in Hb as (b' & _ & [(He' & _ & ->)|(_ & Hx)]).
    + done.
    + by apply Hglob in Hx.
Qed.

Lemma candidate_file_iff_extension_witness :
  let h := Sample.host "reports/ok.xml" (fun _ => None) in
  let this :=
    construct Sample.penv (Sample.options ["results"; "nightly.v2"; "reports"]) in
  @candidates h [] "nightly.v2" = ["nightly.v2"]
  /\ @candidates h [] "results" = []
  /\ "results" ∉ @jUnitXMLFiles h this.
Proof.
  intros h this.
  destruct (@candidate_file_iff_extension h this) as (Hfile & Hdir & Hnever).
  split_and!.
  - apply (Hfile [] "nightly.v2"). vm_compute. discriminate.
  - apply (Hdir [] "results"). reflexivity.
  - apply Hnever; [|reflexivity].
    intros d x Hx. simpl in Hx. unfold Sample.glob_on_disk in Hx.
    repeat case_bool_decide;
      repeat (apply elem_of_cons in Hx as [->|Hx]; [vm_compute; discriminate|]);
      by apply elem_of_nil in Hx.
Defined.

(** ** Tags *)

Lemma spread_lookup (target source : gmap string string) (k : string) :
  spread target source !! k =
  match source !! k with
  | Some v => Some v
  | None => target !! k
  end.
Proof.
  unfold spread. rewrite lookup_union.
  by destruct (source !! k), (target !! k).
Qed.

Section TagsFacts.
Context `{Host}.

Lemma spanTagsOf_lookup (this : Command.t) (k : string) :
  spanTagsOf this !! k =
  highest [envObject this; envVarTagsOf this; cliTagsOf this;
           getCISpanTags; getGitMetadata] k.
Proof.
  unfold spanTagsOf. simpl. rewrite !spread_lookup, lookup_empty.
  by repeat case_match.
Qed.

Lemma envObject_env (this : Command.t) (v : string) :
  envObject this !! "env" = Some v <->
  Config.env (Command.config this) = Some v /\ v <> EmptyString.
Proof.
  unfold envObject. destruct (Config.env (Command.config this)) as [e|].
  - destruct (truthy_str e) eqn:He.
    + apply truthy_str_true in He. rewrite lookup_singleton_eq.
      split; [by intros [= ->]|by intros [[= ->] _]].
    + apply truthy_str_false in He. rewrite lookup_empty.
      split; [done|]. intros [[= ->] ?]. done.
  - rewrite lookup_empty. split; [done|by intros [? _]].
Qed.

Lemma envObject_other (this : Command.t) (k : string) :
  k <> "env" -> envObject this !! k = None.
Proof.
  intros Hk. unfold envObject.
  destruct (Config.env (Command.config this)) as [e|]; [|apply lookup_empty].
  destruct (truthy_str e); [|apply lookup_empty].
  by apply lookup_singleton_ne.
Qed.

Lemma getMatchingJUnitXMLFiles_spanTags (this : Command.t) out payloads p :
  getMatchingJUnitXMLFiles this = (out, Ok payloads) ->
  p ∈ payloads -> spanTags p = spanTagsOf this.
Proof.
  unfold getMatchingJUnitXMLFiles. intros Hg Hp.
  apply io_bind_ok in Hg as (o1 & files & o2 & _ & Hret & _).
  io_unfold. injection Hret as _ <-.
  apply list_elem_of_fmap in Hp as (x & -> & _). done.
Qed.

Lemma settled_config_env (penv : ProcessEnv) (this : Command.t) :
  Config.env (Command.config (settled penv this)) =
  if truthy truthy_str (Config.env (Command.config this))
  then Config.env (Command.config this) else Command.env this.
Proof.
  unfold settled, settle_basePaths, settle_env, settle_service. simpl.
  destruct (truthy truthy_str (Command.service this)); simpl;
    by destruct (truthy truthy_str (Config.env (Command.config this))).
Qed.

End TagsFacts.

(** C5, amended.  The value of a key in the [spanTags] of every payload is the
    value from the source of highest precedence that defines it, in the order
    (highest first) explicit env, [DD_TAGS] list, [--tags], CI tags, git tags;
    merging never fails.  The explicit env adds the key [env] exactly when the
    explicit env value is set to a non-empty string, and adds no other key; so
    the key [env] is present when the explicit env value is set or when one of
    the four other sources defines it. *)
Theorem spanTags_precedence `{Host} (this : Command.t) (k : string) :
  spanTagsOf this !! k =
    highest [envObject this; envVarTagsOf this; cliTagsOf this;
             getCISpanTags; getGitMetadata] k
  /\ (forall out payloads p,
        getMatchingJUnitXMLFiles this = (out, Ok payloads) ->
        p ∈ payloads ->
        spanTags p !! k =
          highest [envObject this; envVarTagsOf this; cliTagsOf this;
                   getCISpanTags; getGitMetadata] k)
  /\ (forall v, envObject this !! "env" = Some v <->
        Config.env (Command.config this) = Some v /\ v <> EmptyString)
  /\ (k <> "env" -> envObject this !! k = None)
  /\ (is_Some (spanTagsOf this !! "env") <->
        truthy truthy_str (Config.env (Command.config this)) = true
        \/ is_Some (highest [envVarTagsOf this; cliTagsOf this;
                             getCISpanTags; getGitMetadata] "env")).
Proof.
  split_and!.
  - apply spanTagsOf_lookup.
  - intros out payloads p Hg Hp.
    rewrite (getMatchingJUnitXMLFiles_spanTags this out payloads p Hg Hp).
    apply spanTagsOf_lookup.
  - apply envObject_env.
  - apply envObject_other.
  - rewrite spanTagsOf_lookup. cbn [highest].
    destruct (envObject this !! "env") as [v|] eqn:Hv.
    + apply envObject_env in Hv as [Hv Hne]. rewrite Hv. simpl.
      apply truthy_str_true in Hne. split; [by left|by eexists].
    + split; [by right|]. intros [Ht|?]; [|done].
      destruct (Config.env (Command.config this)) as [e|] eqn:He; [|done].
      simpl in Ht. apply truthy_str_true in Ht.
      assert (envObject this !! "env" = Some e) as Hc; [|congruence].
      apply envObject_env. by rewrite He.
Qed.

(** C5 as stated fails in its last clause: with no explicit env value, a tag
    [env:prod] given with [--tags] puts the key [env] in the merged tags. *)
Lemma env_key_without_explicit_env :
  ~ (forall (h : Host) (this : Command.t),
       is_Some (@spanTagsOf h this !! "env") ->
       truthy truthy_str (Config.env (Command.config this)) = true).
Proof.
  intros Hclaim.
  pose (h := Sample.host "reports/ok.xml" (fun _ => None)).
  pose (o := {| opt_service := Some "shop"; opt_env := None;
                opt_dryRun := false; opt_tags := Some ["env:prod"];
                opt_basePaths := ["reports"]; opt_maxConcurrency := None |}).
  specialize (Hclaim h (@settled h Sample.penv (construct Sample.penv o))).
  assert (Hno : truthy truthy_str
                  (Config.env (Command.config
                     (@settled h Sample.penv (construct Sample.penv o)))) = false)
    by reflexivity.
  rewrite Hno in Hclaim. lapply Hclaim; [discriminate|].
  exists "prod". vm_compute. reflexivity.
Qed.

(** C9, amended.  When [DD_ENV] is set to a non-empty string, which is what
    the code tests, its value is the explicit env of the run, whatever [--env]
    says,
    and is the value of the [env] tag; the value of [--env] is the explicit env
    when [DD_ENV] is unset or empty, and is then the value of the [env] tag. *)
Theorem explicit_env_source `{Host} (penv : ProcessEnv) (o : Options) :
  let this := settled penv (construct penv o) in
  (forall d, DD_ENV penv = Some d -> d <> EmptyString ->
     Config.env (Command.config this) = Some d
     /\ spanTagsOf this !! "env" = Some d)
  /\ (truthy truthy_str (DD_ENV penv) = false ->
      Config.env (Command.config this) = opt_env o
      /\ forall c, opt_env o = Some c -> c <> EmptyString ->
           spanTagsOf this !! "env" = Some c).
Proof.
  intros this.
  assert (Htag : forall v, Config.env (Command.config this) = Some v ->
                   v <> EmptyString -> spanTagsOf this !! "env" = Some v).
  { intros v Hv Hne. rewrite spanTagsOf_lookup. cbn [highest].
    assert (envObject this !! "env" = Some v) as ->; [|done].
    by apply envObject_env. }
  assert (Henv : Config.env (Command.config this) =
                 if truthy truthy_str (DD_ENV penv) then DD_ENV penv
                 else opt_env o).
  { unfold this. by rewrite settled_config_env. }
  split.
  - intros d Hd Hne. rewrite Hd in Henv. simpl in Henv.
    apply truthy_str_true in Hne. rewrite Hne in Henv. split; [done|].
    apply Htag; [done|]. by apply truthy_str_true.
  - intros Hunset. rewrite Hunset in Henv. split; [done|].
    intros c Hc Hne. apply Htag; [congruence|done].
Qed.

Lemma explicit_env_source_witness :
  let h := Sample.host "reports/ok.xml" (fun _ => None) in
  let penv :=
    {| DATADOG_API_KEY := Some "key"; DD_API_KEY := None;
       DD_ENV := Some "staging"; DD_TAGS := None; DD_SERVICE := None |} in
  let o :=
    {| opt_service := Some "shop"; opt_env := Some "prod"; opt_dryRun := false;
       opt_tags := None; opt_basePaths := ["reports"];
       opt_maxConcurrency := None |} in
  Config.env (Command.config (@settled h penv (construct penv o))) = Some "staging"
  /\ @spanTagsOf h (@settled h penv (construct penv o)) !! "env" = Some "staging".
Proof.
  intros h penv o.
  apply (proj1 (@explicit_env_source h penv o) "staging"); [reflexivity|discriminate].
Defined.

(** ** The retry loop *)

Lemma mainError_from_elem_of (rest seen : list error) (best : option error)
    (n : nat) (m : error) :
  mainError_from seen rest best n = Some m -> best = Some m \/ m ∈ rest.
Proof.
  revert seen best n. induction rest as [|e rest IH]; intros seen best n; simpl.
  - tauto.
  - destruct (n <=? S (count_message (message e) seen))%nat; intros Hm;
      apply IH in Hm as [Hm|Hm].
    + right. injection Hm as ->. apply list_elem_of_here.
    + right. by apply list_elem_of_further.
    + by left.
    + right. by apply list_elem_of_further.
Qed.

Lemma mainError_elem_of (errors : list error) (e : error) :
  e ∈ errors -> default e (mainError errors) ∈ errors.
Proof.
  intros He. destruct (mainError errors) as [m|] eqn:Hm; [|done].
  apply mainError_from_elem_of in Hm as [Hm|Hm]; [discriminate|done].
Qed.

Lemma retried_app (p : Payload) (num : nat) (es1 es2 : list error) :
  retried p num (es1 ++ es2) =
  retried p num es1 ++ retried p (num + length es1) es2.
Proof.
  revert num. induction es1 as [|e es1 IH]; intros num; simpl.
  - by rewrite Nat.add_0_r.
  - rewrite IH. by replace (num + S (length es1)) with (S num + length es1) by lia.
Qed.

Lemma upload_requests_app (path : string) (o1 o2 : list line) :
  upload_requests path (o1 ++ o2) =
  upload_requests path o1 + upload_requests path o2.
Proof.
  induction o1 as [|l o1 IH]; [done|].
  destruct l; simpl; rewrite ?IH; lia.
Qed.

Lemma retry_notices_app (path : string) (o1 o2 : list line) :
  retry_notices path (o1 ++ o2) = retry_notices path o1 ++ retry_notices path o2.
Proof.
  induction o1 as [|l o1 IH]; [done|].
  destruct l; simpl; rewrite ?IH; try done. by case_bool_decide.
Qed.

Lemma upload_requests_retried (p : Payload) (num : nat) (es : list error) :
  upload_requests (xmlPath p) (retried p num es) = length es.
Proof.
  revert num. induction es as [|e es IH]; intros num; [done|].
  simpl. rewrite bool_decide_eq_true_2 by done. by rewrite IH.
Qed.

Lemma retry_notices_retried (p : Payload) (num : nat) (es : list error) :
  retry_notices (xmlPath p) (retried p num es) =
  zip (seq num (length es)) (message <$> es).
Proof.
  revert num. induction es as [|e es IH]; intros num; [done|].
  simpl. rewrite bool_decide_eq_true_2 by done. by rewrite IH.
Qed.

Section RetryFacts.
Context `{Host}.
Variable this : Command.t.
Variable jUnitXML : Payload.
Hypothesis live : Command.dryRun this = false.

Lemma attempt_resolved (num : nat) :
  intake (xmlPath jUnitXML) num = None ->
  attempt this jUnitXML num = ([renderUpload jUnitXML], Resolved).
Proof. intros Hi. unfold attempt, api_uploadJUnitXML. rewrite live, Hi. done. Qed.

Lemma attempt_thrown (num : nat) (e : error) :
  intake (xmlPath jUnitXML) num = Some e -> retryable e ->
  attempt this jUnitXML num = ([renderUpload jUnitXML], Thrown e).
Proof.
  intros Hi (status & Hs & Hr). unfold attempt, api_uploadJUnitXML.
  rewrite live, Hi. io_unfold. simpl. by rewrite Hs, Hr.
Qed.

Lemma attempt_bailed (num : nat) (e : error) :
  intake (xmlPath jUnitXML) num = Some e -> ~ retryable e ->
  attempt this jUnitXML num = ([renderUpload jUnitXML], Bailed e).
Proof.
  intros Hi Hr. unfold attempt, api_uploadJUnitXML.
  rewrite live, Hi. io_unfold. simpl.
  destruct (response e) as [status|] eqn:Hs; [|done].
  destruct (includes status errorCodesNoRetry) eqn:Hin; [done|].
  exfalso. apply Hr. by exists status.
Qed.

(** While the attempts fail with a status that allows a retry and delays are
    left, the loop writes the request and the notice and goes on. *)
Lemma retry_from_retried (onRetry := fun (e : error) (n : nat) =>
                            [renderRetriedUpload jUnitXML (message e) n])
    (es : list error) (timeouts num : nat) (errors : list error) :
  (forall i e, es !! i = Some e ->
     intake (xmlPath jUnitXML) (num + i) = Some e /\ retryable e) ->
  length es <= timeouts ->
  retry_from (attempt this jUnitXML) onRetry timeouts num errors =
  let '(o, r) := retry_from (attempt this jUnitXML) onRetry
                   (timeouts - length es) (num + length es) (errors ++ es) in
  (retried jUnitXML num es ++ o, r).
Proof.
  revert timeouts num errors.
  induction es as [|e es IH]; intros timeouts num errors Hes Hlen.
  - simpl. rewrite Nat.sub_0_r, Nat.add_0_r, app_nil_r. by destruct (retry_from _ _ _ _ _).
  - simpl in Hlen. destruct timeouts as [|timeouts]; [lia|].
    destruct (Hes 0 e eq_refl) as [Hi Hr]. rewrite Nat.add_0_r in Hi.
    simpl. rewrite (attempt_thrown num e Hi Hr).
    rewrite (IH timeouts (S num) (errors ++ [e])); [|intros i e' Hi'|lia].
    + replace (S num + length es) with (num + S (length es)) by lia.
      rewrite <- (assoc_L (++) errors [e] es). simpl.
      by destruct (retry_from _ _ _ _ _).
    + replace (S num + i) with (num + S i) by lia. by apply Hes.
Qed.

(** The loop ends at once, without a notice, when an attempt bails. *)
Lemma retry_bailed (es : list error) (e : error) :
  fails_retryably (xmlPath jUnitXML) es -> length es <= 5 ->
  intake (xmlPath jUnitXML) (S (length es)) = Some e -> ~ retryable e ->
  retry (attempt this jUnitXML)
    (fun e n => [renderRetriedUpload jUnitXML (message e) n]) 5 =
  (retried jUnitXML 1 es ++ [renderUpload jUnitXML], Throw e).
Proof.
  intros Hes Hlen Hi Hr. unfold retry.
  rewrite (retry_from_retried es 5 1 []); [|by apply Hes|done].
  replace (1 + length es) with (S (length es)) by lia.
  destruct (5 - length es) as [|t]; simpl;
    by rewrite (attempt_bailed _ e Hi Hr).
Qed.

(** The loop ends after a success. *)
Lemma retry_resolved (es : list error) :
  fails_retryably (xmlPath jUnitXML) es -> length es <= 5 ->
  intake (xmlPath jUnitXML) (S (length es)) = None ->
  retry (attempt this jUnitXML)
    (fun e n => [renderRetriedUpload jUnitXML (message e) n]) 5 =
  (retried jUnitXML 1 es ++ [renderUpload jUnitXML], Ok tt).
Proof.
  intros Hes Hlen Hi. unfold retry.
  rewrite (retry_from_retried es 5 1 []); [|by apply Hes|done].
  replace (1 + length es) with (S (length es)) by lia.
  destruct (5 - length es) as [|t]; simpl; by rewrite (attempt_resolved _ Hi).
Qed.

(** Six failures that allow a retry use up the five delays; the error the
    loop rejects with is one of the six. *)
Lemma retry_exhausted (es : list error) :
  fails_retryably (xmlPath jUnitXML) es -> length es = 6 ->
  exists m, m ∈ es
    /\ retry (attempt this jUnitXML)
         (fun e n => [renderRetriedUpload jUnitXML (message e) n]) 5 =
       (retried jUnitXML 1 (take 5 es) ++ [renderUpload jUnitXML], Throw m).
Proof.
  intros Hes Hlen.
  destruct (es !! 5) as [e6|] eqn:H6;
    [|apply lookup_ge_None in H6; lia].
  assert (Hsplit : es = take 5 es ++ [e6]).
  { rewrite <- (take_drop 5 es) at 1. f_equal.
    rewrite (drop_S _ _ _ H6), drop_ge by lia. done. }
  assert (Hl5 : length (take 5 es) = 5) by (rewrite length_take; lia).
  destruct (Hes 5 e6 H6) as [Hi6 Hr6].
  exists (default e6 (mainError es)). split.
  { apply mainError_elem_of. by eapply list_elem_of_lookup_2. }
  unfold retry.
  rewrite (retry_from_retried (take 5 es) 5 1 []); [| |lia].
  - rewrite Hl5. simpl. rewrite (attempt_thrown 6 e6 Hi6 Hr6).
    by rewrite <- Hsplit.
  - intros i e Hi. apply lookup_take_Some in Hi as [Hi _]. by apply Hes.
Qed.

End RetryFacts.

(** ** One upload and the pool *)

Section UploadFacts.
Context `{Host}.
Variable this : Command.t.

Lemma uploadJUnitXML_resolved (jUnitXML : Payload) (out : list line) :
  retry (attempt this jUnitXML)
    (fun e n => [renderRetriedUpload jUnitXML (message e) n]) 5 = (out, Ok tt) ->
  uploadJUnitXML this jUnitXML = (out, Ok Sent).
Proof.
  intros Hr. unfold uploadJUnitXML. rewrite Hr. io_unfold.
  by rewrite app_nil_r.
Qed.

Lemma uploadJUnitXML_rejected (jUnitXML : Payload) (out : list line) (e : error) :
  retry (attempt this jUnitXML)
    (fun e n => [renderRetriedUpload jUnitXML (message e) n]) 5 = (out, Throw e) ->
  uploadJUnitXML this jUnitXML =
  (out ++ [renderFailedUpload jUnitXML e], after_rejection e).
Proof.
  intros Hr. unfold uploadJUnitXML, after_rejection, stops_upload.
  rewrite Hr. io_unfold.
  destruct (response e) as [status|]; [|done].
  by destruct (includes status errorCodesStopUpload).
Qed.

(** Under [--dry-run] nothing is sent and the upload counts as done. *)
Lemma uploadJUnitXML_dryRun (jUnitXML : Payload) :
  Command.dryRun this = true ->
  uploadJUnitXML this jUnitXML = ([renderDryRunUpload jUnitXML], Ok Sent).
Proof.
  intros Hdry. apply uploadJUnitXML_resolved.
  unfold retry. simpl. unfold attempt. by rewrite Hdry.
Qed.

Lemma asyncPool_cons {A B} (limit : nat) (item : A) (rest : list A)
    (f : A -> io B) :
  asyncPool limit (item :: rest) f =
  match f item with
  | (o, Ok r) =>
      let '(o', rs) := asyncPool limit rest f in (o ++ o', res_cons r rs)
  | (o, Throw e) => (o, Throw e)
  end.
Proof.
  simpl. io_unfold. destruct (f item) as [o [r|e]]; [|done].
  destruct (asyncPool limit rest f) as [o' [rs|e]]; [|done].
  by rewrite app_nil_r.
Qed.

Lemma asyncPool_app {A B} (limit : nat) (before after : list A)
    (f : A -> io B) (o : list line) (rs : list B) :
  asyncPool limit before f = (o, Ok rs) ->
  asyncPool limit (before ++ after) f =
  let '(o', r) := asyncPool limit after f in
  (o ++ o', match r with Ok rs' => Ok (rs ++ rs') | Throw e => Throw e end).
Proof.
  revert o rs. induction before as [|b before IH]; intros o rs.
  - simpl. io_unfold. intros [= <- <-]. simpl.
    by destruct (asyncPool limit after f) as [o' [rs'|e]].
  - rewrite <- app_comm_cons, !asyncPool_cons.
    destruct (f b) as [ob [rb|eb]]; [|done].
    destruct (asyncPool limit before f) as [o1 [rs1|e1]] eqn:Hb; [|done].
    simpl. intros [= <- <-]. rewrite (IH o1 rs1 eq_refl).
    destruct (asyncPool limit after f) as [o' [rs'|e]]; simpl;
      by rewrite (assoc_L (++)).
Qed.

(** The pool returns one result for each payload, that of its upload. *)
Lemma asyncPool_ok (limit : nat) (payloads : list Payload) (o : list line)
    (results : list upload_end) :
  asyncPool limit payloads (uploadJUnitXML this) = (o, Ok results) ->
  Forall2 (fun p r => exists o', uploadJUnitXML this p = (o', Ok r))
    payloads results.
Proof.
  revert o results. induction payloads as [|p payloads IH]; intros o results.
  - simpl. io_unfold. intros [= _ <-]. constructor.
  - rewrite asyncPool_cons.
    destruct (uploadJUnitXML this p) as [op [r|e]] eqn:Hp; [|done].
    destruct (asyncPool limit payloads _) as [o' [rs|e]] eqn:Hrest; [|done].
    simpl. intros [= _ <-]. constructor; [by eexists|by eapply IH].
Qed.

Lemma sent_skipped_count (results : list upload_end) :
  length results = sent_count results + skipped_count results.
Proof.
  unfold sent_count, skipped_count.
  induction results as [|[|e] results IH]; simpl; lia.
Qed.

Lemma reported_count_summary (o : list line) (n : nat) :
  reported_count (o ++ [renderSuccessfulCommand n]) = Some n.
Proof. unfold reported_count. by rewrite last_snoc. Qed.

(** A batch that completes has run every upload and reports the number of
    payloads it was given. *)
Lemma uploadAll_completed (payloads : list Payload) (out : list line) (code : nat) :
  uploadAll this payloads = (out, Ok code) ->
  exists o results,
    asyncPool (Command.maxConcurrency this) payloads (uploadJUnitXML this)
      = (o, Ok results)
    /\ out = o ++ [renderSuccessfulCommand (length payloads)]
    /\ code = 0.
Proof.
  unfold uploadAll. intros Hu.
  destruct (asyncPool _ payloads _) as [o [results|e]] eqn:Hp;
    io_unfold; [|done].
  simpl in Hu. injection Hu as <- <-. by eexists _, _.
Qed.

Lemma uploadAll_rejected (payloads : list Payload) (o : list line) (e : error) :
  asyncPool (Command.maxConcurrency this) payloads (uploadJUnitXML this)
    = (o, Throw e) ->
  uploadAll this payloads = (o, Throw e).
Proof. unfold uploadAll. intros ->. by io_unfold. Qed.

End UploadFacts.

(** ** The command *)

Section ExecuteFacts.
Context `{Host}.

Lemma settle_service_basePaths penv this :
  Command.basePaths (settle_service penv this) = Command.basePaths this.
Proof. unfold settle_service. by destruct (negb _). Qed.

Lemma settle_apiKey penv this :
  Config.apiKey (Command.config (settle_env (settle_service penv this))) =
  Config.apiKey (Command.config this).
Proof.
  unfold settle_env, settle_service.
  destruct (negb (truthy truthy_str (Command.service this))); simpl;
    by destruct (negb _).
Qed.

Lemma settled_dryRun penv this :
  Command.dryRun (settled penv this) = Command.dryRun this.
Proof.
  unfold settled, settle_basePaths, settle_env, settle_service. simpl.
  destruct (negb (truthy truthy_str (Command.service this))); simpl;
    by destruct (negb _).
Qed.

(** Past its checks, [execute] writes the command info, looks for the files
    and ends as the batch ends. *)
Lemma execute_ready penv this o1 payloads :
  ready penv this ->
  getMatchingJUnitXMLFiles (settled penv this) = (o1, Ok payloads) ->
  exists info,
    execute penv this =
    let '(o2, r) := uploadAll (settled penv this) payloads in
    (info ++ o1 ++ o2, r).
Proof.
  intros (Hsvc & Hbase & Hkey) Hg. unfold execute.
  rewrite Hsvc. simpl. rewrite settle_service_basePaths.
  destruct (Command.basePaths this) as [|b bs] eqn:Hb; [done|].
  unfold getApiHelper. rewrite settle_apiKey, Hkey. simpl.
  fold (settled penv this). eexists.
  io_unfold. simpl. rewrite Hg.
  destruct (uploadAll (settled penv this) payloads) as [o2 r]. reflexivity.
Qed.

(** A run that ends with exit code 0 found its files and completed its
    batch. *)
Lemma execute_completed penv this out :
  execute penv this = (out, Ok 0) ->
  exists info o1 payloads o2,
    getMatchingJUnitXMLFiles (settled penv this) = (o1, Ok payloads)
    /\ uploadAll (settled penv this) payloads = (o2, Ok 0)
    /\ out = info ++ o1 ++ o2.
Proof.
  unfold execute.
  destruct (negb (truthy truthy_str (Command.service (settle_service penv this))));
    [by io_unfold|].
  rewrite settle_service_basePaths.
  destruct (Command.basePaths this) as [|b bs] eqn:Hb; [by io_unfold|].
  unfold getApiHelper. rewrite settle_apiKey.
  destruct (negb (truthy truthy_str (Config.apiKey (Command.config this))));
    [by io_unfold|].
  fold (settled penv this).
  destruct (getMatchingJUnitXMLFiles (settled penv this)) as [o1 [payloads|e]] eqn:Hg;
    [|by io_unfold].
  io_unfold. simpl.
  destruct (uploadAll (settled penv this) payloads) as [o2 [code|e]] eqn:Hu;
    [|done].
  intros [= <- ->]. by eexists _, _, _, _.
Qed.

Lemma filterValid_ok (files : list string) out kept :
  filterValid files = (out, Ok kept) ->
  kept = List.filter passes files.
Proof.
  revert out kept.
  induction files as [|f rest IH]; intros out kept; cbn [filterValid List.filter].
  - io_unfold. by intros [= _ <-].
  - unfold passes at 1. destruct (validateXml f) as [m|e]; [|by io_unfold].
    destruct m as [msg|]; cbn [truthy negb].
    + destruct (truthy_str msg); cbn [negb].
      * intros Hf. apply io_bind_ok in Hf as (? & ? & o2 & _ & Hf & _). eauto.
      * intros Hf. apply io_bind_ok in Hf as (o1 & kept' & o2 & Hf & Hret & _).
        io_unfold. injection Hret as _ <-. f_equal. eauto.
    + intros Hf. apply io_bind_ok in Hf as (o1 & kept' & o2 & Hf & Hret & _).
      io_unfold. injection Hret as _ <-. f_equal. eauto.
Qed.

(** No payload is a file the filter reported as invalid. *)
Lemma getMatchingJUnitXMLFiles_valid this out payloads p :
  getMatchingJUnitXMLFiles this = (out, Ok payloads) ->
  p ∈ payloads -> ~ fails_validation (xmlPath p).
Proof.
  unfold getMatchingJUnitXMLFiles. intros Hg Hp.
  apply io_bind_ok in Hg as (o1 & kept & o2 & Hf & Hret & _).
  io_unfold. injection Hret as _ <-.
  apply filterValid_ok in Hf as ->.
  apply list_elem_of_fmap in Hp as (x & -> & Hx). simpl.
  apply list_elem_of_In, List.filter_In in Hx as [_ Hx].
  unfold passes in Hx. intros (msg & Hv & Ht). rewrite Hv in Hx.
  simpl in Hx. by rewrite Ht in Hx.
Qed.

End ExecuteFacts.

(** ** How an upload ends *)

Lemma retryable_not_stopping (e : error) :
  retryable e -> stops_upload e = false.
Proof.
  intros (status & Hs & Hr). unfold stops_upload. rewrite Hs.
  unfold includes, errorCodesNoRetry, errorCodesStopUpload in *. simpl in *.
  destruct (status =? 400)%Z; [done|]. by destruct (status =? 403)%Z.
Qed.

Lemma no_status_not_retryable (e : error) :
  response e = None -> ~ retryable e /\ stops_upload e = true.
Proof.
  intros Hn. unfold retryable, stops_upload. rewrite Hn.
  split; [by intros (? & ? & _)|done].
Qed.

Lemma no_retry_status_not_retryable (e : error) (status : Z) :
  response e = Some status -> includes status errorCodesNoRetry = true ->
  ~ retryable e.
Proof. intros Hs Hin (status' & Hs' & Hr). congruence. Qed.

Lemma bailed_lines (p : Payload) (es : list error) (e : error) :
  upload_requests (xmlPath p)
    (retried p 1 es ++ [renderUpload p; renderFailedUpload p e]) = S (length es)
  /\ retry_notices (xmlPath p)
       (retried p 1 es ++ [renderUpload p; renderFailedUpload p e])
     = zip (seq 1 (length es)) (message <$> es).
Proof.
  rewrite upload_requests_app, retry_notices_app.
  rewrite upload_requests_retried, retry_notices_retried. simpl.
  rewrite bool_decide_eq_true_2 by done. rewrite app_nil_r. split; [lia|done].
Qed.

Lemma sent_count_lt (results : list upload_end) (r : upload_end) :
  r ∈ results -> is_sent r = false -> sent_count results < length results.
Proof.
  unfold sent_count. intros Hr Hs.
  induction results as [|r' results IH]; [by apply elem_of_nil in Hr|].
  apply elem_of_cons in Hr as [<-|Hr]; simpl.
  - rewrite Hs. pose proof (List.filter_length_le is_sent results). lia.
  - specialize (IH Hr). destruct (is_sent r'); simpl; lia.
Qed.

Section EndFacts.
Context `{Host}.
Variable this : Command.t.
Variable jUnitXML : Payload.
Hypothesis live : Command.dryRun this = false.

(** An attempt that bails ends the upload: no notice, no further request. *)
Lemma uploadJUnitXML_bailed (es : list error) (e : error) :
  fails_retryably (xmlPath jUnitXML) es -> length es <= 5 ->
  intake (xmlPath jUnitXML) (S (length es)) = Some e -> ~ retryable e ->
  uploadJUnitXML this jUnitXML =
  (retried jUnitXML 1 es ++ [renderUpload jUnitXML; renderFailedUpload jUnitXML e],
   after_rejection e).
Proof.
  intros Hes Hlen Hi Hr.
  rewrite (uploadJUnitXML_rejected this jUnitXML _ e
             (retry_bailed this jUnitXML live es e Hes Hlen Hi Hr)).
  by rewrite <- (assoc_L (++)).
Qed.

(** Six failures that allow a retry end the upload as a skip. *)
Lemma uploadJUnitXML_exhausted (es : list error) :
  fails_retryably (xmlPath jUnitXML) es -> length es = 6 ->
  exists m, m ∈ es /\ retryable m
    /\ uploadJUnitXML this jUnitXML =
       (retried jUnitXML 1 (take 5 es)
          ++ [renderUpload jUnitXML; renderFailedUpload jUnitXML m],
        Ok (Skipped m)).
Proof.
  intros Hes Hlen.
  destruct (retry_exhausted this jUnitXML live es Hes Hlen) as (m & Hm & Hr).
  assert (Hrm : retryable m).
  { apply list_elem_of_lookup in Hm as [i Hi]. by apply (Hes i m). }
  exists m. split_and!; [done..|].
  rewrite (uploadJUnitXML_rejected this jUnitXML _ m Hr).
  unfold after_rejection. rewrite (retryable_not_stopping m Hrm).
  by rewrite <- (assoc_L (++)).
Qed.

End EndFacts.

(** C2 as stated fails: when every request ends without a status code, the
    upload is not attempted six times and does not end as a skip. *)
Lemma failure_without_status_not_retried :
  ~ (forall (h : Host) (this : Command.t) (p : Payload),
       Command.dryRun this = false ->
       (forall n, exists e, @intake h (xmlPath p) n = Some e /\ response e = None) ->
       exists out m,
         @uploadJUnitXML h this p = (out, Ok (Skipped m))
         /\ upload_requests (xmlPath p) out = 6).
Proof.
  intros Hclaim.
  pose (h := Sample.host "reports/single.xml" (Sample.always Sample.offline)).
  pose (this := @settled h Sample.penv
                  (construct Sample.penv (Sample.options ["reports/single.xml"]))).
  destruct (Hclaim h this (Sample.payload "reports/single.xml") eq_refl)
    as (out & m & Hu & _).
  - intros n. exists Sample.offline. split; reflexivity.
  - vm_compute in Hu. discriminate.
Qed.

(** C4, amended.  A payload whose every request fails with status 500 is
    requested exactly six times; a retry notice with the number of the failed
    attempt (1 to 5) and its message is written after each of the first five
    failures, in that order; the sixth failure is reported and the upload
    returns as a skip, which is not fatal.  The payload is not a completed
    upload, yet the count a completed batch reports, which is the number of
    its payloads, includes it. *)
Theorem always_500_six_attempts `{Host} (this : Command.t) (p : Payload) :
  Command.dryRun this = false ->
  (forall n, exists e, intake (xmlPath p) n = Some e /\ response e = Some 500%Z) ->
  exists es m,
    length es = 6
    /\ (forall i e, es !! i = Some e -> intake (xmlPath p) (S i) = Some e)
    /\ m ∈ es /\ response m = Some 500%Z
    /\ let out :=
         retried p 1 (take 5 es) ++ [renderUpload p; renderFailedUpload p m] in
       uploadJUnitXML this p = (out, Ok (Skipped m))
       /\ upload_requests (xmlPath p) out = 6
       /\ retry_notices (xmlPath p) out
          = zip [1; 2; 3; 4; 5] (message <$> take 5 es)
       /\ forall payloads out' code,
            p ∈ payloads ->
            uploadAll this payloads = (out', Ok code) ->
            exists o results,
              asyncPool (Command.maxConcurrency this) payloads
                (uploadJUnitXML this) = (o, Ok results)
              /\ reported_count out' = Some (length payloads)
              /\ sent_count results < length payloads.
Proof.
  intros live H500.
  destruct (H500 1) as (e1 & Hi1 & Hs1), (H500 2) as (e2 & Hi2 & Hs2),
    (H500 3) as (e3 & Hi3 & Hs3), (H500 4) as (e4 & Hi4 & Hs4),
    (H500 5) as (e5 & Hi5 & Hs5), (H500 6) as (e6 & Hi6 & Hs6).
  pose (es := [e1; e2; e3; e4; e5; e6]).
  assert (Hall : forall i e, es !! i = Some e ->
            intake (xmlPath p) (S i) = Some e /\ response e = Some 500%Z).
  { intros i e Hi. do 6 (destruct i as [|i]; [by injection Hi as <-|]).
    discriminate. }
  assert (Hes : fails_retryably (xmlPath p) es).
  { intros i e Hi. destruct (Hall i e Hi) as [Hin Hs]. split; [done|].
    exists 500%Z. by split. }
  destruct (uploadJUnitXML_exhausted this p live es Hes eq_refl)
    as (m & Hm & _ & Hu).
  assert (Hsm : response m = Some 500%Z).
  { apply list_elem_of_lookup in Hm as [i Hi]. by apply (Hall i m). }
  exists es, m. split_and!; [done|by intros i e Hi; apply Hall|done|done|].
  intros out. split_and!; [done| | |].
  - subst out. rewrite (proj1 (bailed_lines p (take 5 es) m)). done.
  - subst out. rewrite (proj2 (bailed_lines p (take 5 es) m)). done.
  - intros payloads out' code Hp Hall'.
    apply uploadAll_completed in Hall' as (o & results & Hpool & -> & _).
    exists o, results. split_and!; [done|apply reported_count_summary|].
    pose proof (asyncPool_ok this _ payloads o results Hpool) as HF.
    rewrite (Forall2_length _ _ _ HF).
    apply list_elem_of_lookup in Hp as [i Hi].
    destruct (Forall2_lookup_l _ _ _ _ _ HF Hi) as (r & Hr & o' & Hup).
    rewrite Hu in Hup. injection Hup as _ <-.
    eapply sent_count_lt; [by eapply list_elem_of_lookup_2|done].
Qed.

Lemma always_500_six_attempts_witness :
  let h := Sample.host "reports/single.xml" (Sample.always (Sample.status 500)) in
  let this := @settled h Sample.penv
                (construct Sample.penv (Sample.options ["reports/single.xml"])) in
  let p := Sample.payload "reports/single.xml" in
  exists es m,
    length es = 6
    /\ (forall i e, es !! i = Some e -> @intake h (xmlPath p) (S i) = Some e)
    /\ m ∈ es /\ response m = Some 500%Z
    /\ let out :=
         retried p 1 (take 5 es) ++ [renderUpload p; renderFailedUpload p m] in
       @uploadJUnitXML h this p = (out, Ok (Skipped m))
       /\ upload_requests (xmlPath p) out = 6
       /\ retry_notices (xmlPath p) out
          = zip [1; 2; 3; 4; 5] (message <$> take 5 es)
       /\ forall payloads out' code,
            p ∈ payloads ->
            @uploadAll h this payloads = (out', Ok code) ->
            exists o results,
              asyncPool (Command.maxConcurrency this) payloads
                (@uploadJUnitXML h this) = (o, Ok results)
              /\ reported_count out' = Some (length payloads)
              /\ sent_count results < length payloads.
Proof.
  intros h this p. apply (@always_500_six_attempts h this p).
  - reflexivity.
  - intros n. exists (Sample.status 500). split; reflexivity.
Defined.

(** C4 as stated fails in its last clause: a batch of one payload that always
    meets status 500 completes and reports one file, not none. *)
Lemma always_500_still_counted :
  ~ (forall (h : Host) (this : Command.t) (p : Payload),
       Command.dryRun this = false ->
       (forall n, exists e,
          @intake h (xmlPath p) n = Some e /\ response e = Some 500%Z) ->
       forall out code,
         @uploadAll h this [p] = (out, Ok code) ->
         reported_count out = Some 0).
Proof.
  intros Hclaim.
  pose (h := Sample.host "reports/single.xml" (Sample.always (Sample.status 500))).
  pose (this := @settled h Sample.penv
                  (construct Sample.penv (Sample.options ["reports/single.xml"]))).
  pose (p := Sample.payload "reports/single.xml").
  destruct (@uploadAll h this [p]) as [out [code|e]] eqn:Hu;
    vm_compute in Hu; [|discriminate].
  assert (Hc : reported_count out = Some 0).
  { apply (Hclaim h this p eq_refl) with (code := code).
    - intros n. exists (Sample.status 500). split; reflexivity.
    - injection Hu as <- <-. vm_compute. reflexivity. }
  injection Hu as <- <-. vm_compute in Hc. discriminate.
Qed.

(** C1, amended.  When a run ends with exit code 0, the count in its summary
    is the number of payloads scheduled, that is of the unique candidate files
    that passed validation: no file reported as invalid is counted, and every
    scheduled payload is, whether its upload completed or was skipped.  The
    count is the number of completed uploads when no upload was skipped, and
    so under [--dry-run], where every payload counts as uploaded. *)
Theorem reported_count_is_scheduled `{Host} (penv : ProcessEnv)
    (this : Command.t) (out : list line) :
  execute penv this = (out, Ok 0) ->
  exists o payloads o' results,
    getMatchingJUnitXMLFiles (settled penv this) = (o, Ok payloads)
    /\ asyncPool (Command.maxConcurrency (settled penv this)) payloads
         (uploadJUnitXML (settled penv this)) = (o', Ok results)
    /\ reported_count out = Some (length payloads)
    /\ length payloads = sent_count results + skipped_count results
    /\ (forall p, p ∈ payloads -> ~ fails_validation (xmlPath p))
    /\ (skipped_count results = 0 ->
        reported_count out = Some (sent_count results))
    /\ (Command.dryRun this = true ->
        reported_count out = Some (sent_count results)).
Proof.
  intros Hex.
  apply execute_completed in Hex as (info & o1 & payloads & o2 & Hg & Hu & ->).
  apply uploadAll_completed in Hu as (o & results & Hpool & -> & _).
  pose proof (asyncPool_ok _ _ payloads o results Hpool) as HF.
  pose proof (Forall2_length _ _ _ HF) as Hlen.
  pose proof (sent_skipped_count results) as Hsum.
  assert (Hrep : reported_count
                   (info ++ o1 ++ o ++ [renderSuccessfulCommand (length payloads)])
                 = Some (length payloads)).
  { rewrite !(assoc_L (++)). apply reported_count_summary. }
  exists o1, payloads, o, results.
  split_and!; [done|done|done|lia| | |].
  - intros p Hp. by eapply getMatchingJUnitXMLFiles_valid.
  - intros Hskip. rewrite Hrep. f_equal. lia.
  - intros Hdry. rewrite Hrep. f_equal.
    assert (Hsent : Forall (fun r => is_sent r = true) results).
    { apply Forall_lookup_2. intros i r Hr.
      destruct (Forall2_lookup_r _ _ _ _ _ HF Hr) as (p & _ & o' & Hup).
      rewrite uploadJUnitXML_dryRun in Hup by by rewrite settled_dryRun.
      by injection Hup as _ <-. }
    rewrite Hlen. unfold sent_count. clear -Hsent.
    induction Hsent as [|r rs Hr _ IH]; [done|]. simpl. rewrite Hr. simpl. lia.
Qed.

Lemma reported_count_is_scheduled_witness :
  let h := Sample.host "reports/single.xml" (Sample.always (Sample.status 413)) in
  let this := construct Sample.penv (Sample.options ["reports"; "reports/ok.xml"]) in
  reported_count (fst (@execute h Sample.penv this)) = Some 2.
Proof.
  intros h this.
  destruct (@reported_count_is_scheduled h Sample.penv this
              (fst (@execute h Sample.penv this)))
    as (o & payloads & o' & results & Hg & _ & Hrep & _).
  - vm_compute. reflexivity.
  - rewrite Hrep. f_equal.
    vm_compute in Hg. injection Hg as _ <-. reflexivity.
Defined.

(** C1 as stated fails: with one file accepted and one refused with status
    413, the run completes and reports two files, while one upload
    completed. *)
Lemma reported_count_includes_skipped :
  ~ (forall (h : Host) (penv : ProcessEnv) (this : Command.t) out o payloads
       o' results,
       @execute h penv this = (out, Ok 0) ->
       @getMatchingJUnitXMLFiles h (@settled h penv this) = (o, Ok payloads) ->
       asyncPool (Command.maxConcurrency (@settled h penv this)) payloads
         (@uploadJUnitXML h (@settled h penv this)) = (o', Ok results) ->
       reported_count out = Some (sent_count results)).
Proof.
  intros Hclaim.
  pose (h := Sample.host "reports/single.xml" (Sample.always (Sample.status 413))).
  pose (this := construct Sample.penv (Sample.options ["reports"; "reports/ok.xml"])).
  specialize (Hclaim h Sample.penv this _ _ _ _ _ eq_refl eq_refl eq_refl).
  vm_compute in Hclaim. discriminate.
Qed.

(** ** Further properties of the command *)

Lemma asyncPool_dryRun `{Host} (this : Command.t) (limit : nat)
    (payloads : list Payload) :
  Command.dryRun this = true ->
  asyncPool limit payloads (uploadJUnitXML this) =
  (renderDryRunUpload <$> payloads, Ok (replicate (length payloads) Sent)).
Proof.
  intros Hdry. induction payloads as [|p payloads IH]; [done|].
  rewrite asyncPool_cons, (uploadJUnitXML_dryRun this p Hdry), IH. done.
Qed.

Lemma upload_requests_dryRun (path : string) (payloads : list Payload) :
  upload_requests path
    ((renderDryRunUpload <$> payloads)
       ++ [renderSuccessfulCommand (length payloads)]) = 0.
Proof.
  rewrite upload_requests_app. cbn [upload_requests]. rewrite Nat.add_0_r.
  induction payloads as [|p payloads IH]; [done|]. by cbn.
Qed.

(** X1.  Under [--dry-run] no request is made: every payload gets its dry-run
    line and counts as uploaded, the batch completes and reports all of
    them. *)
Theorem dry_run_sends_nothing `{Host} (this : Command.t)
    (payloads : list Payload) :
  Command.dryRun this = true ->
  uploadAll this payloads =
    ((renderDryRunUpload <$> payloads)
       ++ [renderSuccessfulCommand (length payloads)], Ok 0)
  /\ asyncPool (Command.maxConcurrency this) payloads (uploadJUnitXML this) =
       (renderDryRunUpload <$> payloads, Ok (replicate (length payloads) Sent))
  /\ forall path, upload_requests path (fst (uploadAll this payloads)) = 0.
Proof.
  intros Hdry.
  assert (Hall : uploadAll this payloads =
            ((renderDryRunUpload <$> payloads)
               ++ [renderSuccessfulCommand (length payloads)], Ok 0)).
  { unfold uploadAll. rewrite (asyncPool_dryRun this _ payloads Hdry).
    io_unfold. done. }
  split_and!; [done|by apply asyncPool_dryRun|].
  intros path. rewrite Hall. apply upload_requests_dryRun.
Qed.

Lemma dry_run_sends_nothing_witness :
  let h := Sample.host "reports/single.xml" (Sample.always (Sample.status 403)) in
  let o :=
    {| opt_service := Some "shop"; opt_env := None; opt_dryRun := true;
       opt_tags := None; opt_basePaths := ["reports"];
       opt_maxConcurrency := None |} in
  let this := @settled h Sample.penv (construct Sample.penv o) in
  @uploadAll h this [Sample.payload "reports/single.xml"] =
  ([DryRunUpload "reports/single.xml"; SuccessfulCommand 1], Ok 0).
Proof.
  intros h o this.
  apply (proj1 (@dry_run_sends_nothing h this
                  [Sample.payload "reports/single.xml"] eq_refl)).
Defined.

(** X2.  A payload whose requests fail at most five times, each time with a
    status outside 400, 403 and 413, and then succeed is uploaded: one notice
    for each failure, in attempt order, one request more than failures, no
    failure line. *)
Theorem retried_upload_succeeds `{Host} (this : Command.t) (p : Payload)
    (es : list error) :
  Command.dryRun this = false ->
  fails_retryably (xmlPath p) es -> length es <= 5 ->
  intake (xmlPath p) (S (length es)) = None ->
  let out := retried p 1 es ++ [renderUpload p] in
  uploadJUnitXML this p = (out, Ok Sent)
  /\ upload_requests (xmlPath p) out = S (length es)
  /\ retry_notices (xmlPath p) out = zip (seq 1 (length es)) (message <$> es).
Proof.
  intros live Hes Hlen Hi out. split_and!.
  - apply uploadJUnitXML_resolved. by apply retry_resolved.
  - subst out. rewrite upload_requests_app, upload_requests_retried. simpl.
    rewrite bool_decide_eq_true_2 by done. lia.
  - subst out. rewrite retry_notices_app, retry_notices_retried. simpl.
    by rewrite app_nil_r.
Qed.

Lemma retried_upload_succeeds_witness :
  let flaky := fun n => if (n <=? 2)%nat then Some (Sample.status 502) else None in
  let h := Sample.host "reports/single.xml" flaky in
  let this := @settled h Sample.penv
                (construct Sample.penv (Sample.options ["reports/single.xml"])) in
  @uploadJUnitXML h this (Sample.payload "reports/single.xml") =
  ([Upload "reports/single.xml";
    RetriedUpload "reports/single.xml" "Request failed" 1;
    Upload "reports/single.xml";
    RetriedUpload "reports/single.xml" "Request failed" 2;
    Upload "reports/single.xml"], Ok Sent).
Proof.
  intros flaky h this.
  refine (proj1 (@retried_upload_succeeds h this
                   (Sample.payload "reports/single.xml")
                   [Sample.status 502; Sample.status 502] _ _ _ _)).
  - reflexivity.
  - intros i e Hi.
    destruct i as [|[|i]]; [injection Hi as <-|injection Hi as <-|discriminate];
      (split; [reflexivity|exists 502%Z; split; reflexivity]).
  - simpl. lia.
  - reflexivity.
Defined.

(** X3.  Without a service, a base path or an API key the command does not
    look for files: it writes [Missing service] or [Missing basePath] to
    stderr and returns 1, or, with both but no key, throws
    [API key is missing]. *)
Theorem execute_checks `{Host} (penv : ProcessEnv) (this : Command.t) :
  (truthy truthy_str (Command.service (settle_service penv this)) = false ->
   execute penv this = ([Stderr "Missing service"], Ok 1))
  /\ (truthy truthy_str (Command.service (settle_service penv this)) = true ->
      Command.basePaths this = [] ->
      execute penv this = ([Stderr "Missing basePath"], Ok 1))
  /\ (truthy truthy_str (Command.service (settle_service penv this)) = true ->
      Command.basePaths this <> [] ->
      truthy truthy_str (Config.apiKey (Command.config this)) = false ->
      execute penv this = ([MissingApiKey], Throw (Error "API key is missing" None))).
Proof.
  split_and!.
  - intros Hs. unfold execute. rewrite Hs. by io_unfold.
  - intros Hs Hb. unfold execute.
    rewrite Hs, settle_service_basePaths, Hb. by io_unfold.
  - intros Hs Hb Hk. unfold execute.
    rewrite Hs, settle_service_basePaths.
    destruct (Command.basePaths this); [done|].
    unfold getApiHelper. rewrite settle_apiKey, Hk. by io_unfold.
Qed.

Lemma execute_checks_witness :
  let h := Sample.host "reports/ok.xml" (fun _ => None) in
  let o :=
    {| opt_service := None; opt_env := None; opt_dryRun := false;
       opt_tags := None; opt_basePaths := ["reports"];
       opt_maxConcurrency := None |} in
  @execute h Sample.penv (construct Sample.penv o)
  = ([Stderr "Missing service"], Ok 1).
Proof.
  intros h o.
  apply (proj1 (@execute_checks h Sample.penv (construct Sample.penv o))).
  reflexivity.
Defined.

Lemma filter_passes_nil `{Host} (files : list string) :
  (forall x, x ∈ files -> fails_validation x) -> List.filter passes files = [].
Proof.
  induction files as [|f files IH]; intros Hall; [done|]. simpl.
  destruct (Hall f (list_elem_of_here _ _)) as (msg & Hv & Ht).
  unfold passes at 1. rewrite Hv. simpl. rewrite Ht. simpl.
  apply IH. intros x Hx. apply Hall. by apply list_elem_of_further.
Qed.

(** X4.  When no candidate is found, or every candidate fails validation, the
    run schedules nothing, completes with exit code 0 and reports 0 files. *)
Theorem nothing_valid_reports_zero `{Host} (penv : ProcessEnv) (this : Command.t) :
  ready penv this ->
  (forall x, x ∈ jUnitXMLFiles (settled penv this) -> fails_validation x) ->
  exists o out,
    getMatchingJUnitXMLFiles (settled penv this) = (o, Ok [])
    /\ execute penv this = (out, Ok 0)
    /\ reported_count out = Some 0.
Proof.
  intros Hready Hall.
  assert (Hfiles : forall x, x ∈ set_spread (jUnitXMLFiles (settled penv this)) ->
                     fails_validation x).
  { intros x Hx. apply Hall. by apply set_spread_elem_of. }
  destruct (filterValid_total (set_spread (jUnitXMLFiles (settled penv this))))
    as [o Hf].
  { intros x Hx. destruct (Hfiles x Hx) as (msg & Hv & _).
    unfold validateXml in Hv. destruct (readFileSync x); [by eexists|done]. }
  rewrite (filter_passes_nil _ Hfiles) in Hf.
  assert (Hg : getMatchingJUnitXMLFiles (settled penv this) = (o ++ [], Ok [])).
  { unfold getMatchingJUnitXMLFiles. rewrite Hf. by io_unfold. }
  rewrite app_nil_r in Hg.
  destruct (execute_ready penv this o [] Hready Hg) as [info Hex].
  exists o, (info ++ o ++ [renderSuccessfulCommand 0]).
  split_and!; [done|by rewrite Hex|].
  rewrite !(assoc_L (++)). apply reported_count_summary.
Qed.

Lemma nothing_valid_reports_zero_witness :
  let h := Sample.host "reports/ok.xml" (fun _ => None) in
  let this :=
    construct Sample.penv
      (Sample.options ["reports/page.xml"; "reports/scribble.xml"; "results"]) in
  exists o out,
    @getMatchingJUnitXMLFiles h (@settled h Sample.penv this) = (o, Ok [])
    /\ @execute h Sample.penv this = (out, Ok 0)
    /\ reported_count out = Some 0.
Proof.
  intros h this. apply (@nothing_valid_reports_zero h Sample.penv this).
  - split_and!; [reflexivity|discriminate|reflexivity].
  - apply Forall_forall.
    assert (Hfiles : @jUnitXMLFiles h (@settled h Sample.penv this) =
              ["reports/page.xml"; "reports/scribble.xml"])
      by (vm_compute; reflexivity).
    rewrite Hfiles.
    repeat (apply Forall_cons_2;
            [eexists; split; [reflexivity|reflexivity]|]).
    apply Forall_nil_2.
Defined.

(** ** One upload, whatever the endpoint answers *)

Lemma retryable_dec (e : error) : retryable e \/ ~ retryable e.
Proof.
  unfold retryable. destruct (response e) as [status|] eqn:Hs.
  - destruct (includes status errorCodesNoRetry) eqn:Hin.
    + right. intros (status' & [= <-] & Hr). congruence.
    + left. by exists status.
  - right. by intros (? & ? & _).
Qed.

Lemma fails_retryably_take `{Host} (path : string) (es : list error) (n : nat) :
  fails_retryably path es -> fails_retryably path (take n es).
Proof. intros Hes i e Hi. apply lookup_take_Some in Hi as [Hi _]. by apply Hes. Qed.

(** The longest run of failures that allow a retry, among the first [n]
    attempts. *)
Lemma retryable_prefix `{Host} (path : string) (n : nat) :
  exists es,
    length es <= n /\ fails_retryably path es
    /\ (length es = n
        \/ intake path (S (length es)) = None
        \/ exists e, intake path (S (length es)) = Some e /\ ~ retryable e).
Proof.
  induction n as [|n (es & Hlen & Hes & Hend)].
  - exists []. split_and!; [done| |by left]. intros i e Hi. discriminate.
  - destruct Hend as [Hn|Hend]; [|exists es; split_and!; [lia|done|by right]].
    destruct (intake path (S (length es))) as [e|] eqn:Hi;
      [|exists es; split_and!; [lia|done|right; by left]].
    destruct (retryable_dec e) as [Hr|Hr];
      [|exists es; split_and!; [lia|done|right; right; by exists e]].
    exists (es ++ [e]). rewrite length_app. simpl. split_and!; [lia| |left; lia].
    intros i e' Hi'. apply lookup_app_Some in Hi' as [Hi'|[Hge Hi']].
    + by apply Hes.
    + apply list_lookup_singleton_Some in Hi' as [Hz <-].
      replace i with (length es) by lia. done.
Qed.

Section ShapeFacts.
Context `{Host}.
Variable this : Command.t.
Variable p : Payload.
Hypothesis live : Command.dryRun this = false.

(** What an upload writes and how it ends: the requests that are retried, the
    last request, and then nothing (sent), or the failure line (skipped or
    thrown). *)
Lemma uploadJUnitXML_shape :
  exists es tail r,
    length es <= 5 /\ fails_retryably (xmlPath p) es
    /\ uploadJUnitXML this p = (retried p 1 es ++ renderUpload p :: tail, r)
    /\ ((tail = [] /\ r = Ok Sent
         /\ intake (xmlPath p) (S (length es)) = None)
        \/ (exists e, tail = [renderFailedUpload p e] /\ r = Throw e
              /\ stops_upload e = true /\ ~ retryable e
              /\ intake (xmlPath p) (S (length es)) = Some e)
        \/ (exists e n, tail = [renderFailedUpload p e] /\ r = Ok (Skipped e)
              /\ stops_upload e = false
              /\ 1 <= n <= S (length es) /\ intake (xmlPath p) n = Some e)).
Proof.
  destruct (retryable_prefix (xmlPath p) 6) as (es & Hlen & Hes & Hend).
  destruct (decide (length es = 6)) as [H6|H6].
  - destruct (uploadJUnitXML_exhausted this p live es Hes H6)
      as (m & Hm & Hrm & Hu).
    exists (take 5 es), [renderFailedUpload p m], (Ok (Skipped m)).
    assert (Hl5 : length (take 5 es) = 5) by (rewrite length_take; lia).
    split_and!; [lia|by apply fails_retryably_take|done|].
    right. right. apply list_elem_of_lookup in Hm as [i Hi].
    exists m, (S i). split_and!; [done|done|by apply retryable_not_stopping|lia| |].
    + apply lookup_lt_Some in Hi. lia.
    + by apply (Hes i m).
  - assert (Hl5 : length es <= 5) by lia.
    destruct Hend as [?|[Hnone|(e & Hi & Hr)]]; [done| |].
    + exists es, [], (Ok Sent). split_and!; [done|done| |by left].
      apply uploadJUnitXML_resolved. by apply retry_resolved.
    + pose proof (uploadJUnitXML_bailed this p live es e Hes Hl5 Hi Hr) as Hu.
      exists es, [renderFailedUpload p e], (after_rejection e).
      split_and!; [done|done|done|]. unfold after_rejection.
      destruct (stops_upload e) eqn:Hstop.
      * right. left. by exists e.
      * right. right. exists e, (S (length es)). split_and!; [done..|lia|lia|done].
Qed.

End ShapeFacts.

Lemma fst_zip_seq {A} (l : list A) :
  (zip (seq 1 (length l)) l).*1 = seq 1 (length l).
Proof. apply fst_zip. by rewrite length_seq. Qed.

Lemma stops_upload_true (e : error) :
  stops_upload e = true ->
  response e = None \/ response e = Some 400%Z \/ response e = Some 403%Z.
Proof.
  unfold stops_upload. destruct (response e) as [status|]; [|by left].
  unfold includes, errorCodesStopUpload. simpl. intros Hin.
  destruct (status =? 400)%Z eqn:E400.
  { apply Z.eqb_eq in E400 as ->. right. by left. }
  destruct (status =? 403)%Z eqn:E403; [|done].
  apply Z.eqb_eq in E403 as ->. right. by right.
Qed.

Lemma stops_upload_false (e : error) :
  stops_upload e = false ->
  exists status, response e = Some status /\ status <> 400%Z /\ status <> 403%Z.
Proof.
  unfold stops_upload. destruct (response e) as [status|]; [|done].
  unfold includes, errorCodesStopUpload. simpl. intros Hin. exists status.
  destruct (status =? 400)%Z eqn:E400; [done|].
  destruct (status =? 403)%Z eqn:E403; [done|].
  apply Z.eqb_neq in E400, E403. done.
Qed.

(** X5.  Whatever the endpoint answers, an upload that is not a dry run makes
    at least one and at most six requests, and writes one retry notice fewer
    than requests: the notices carry the attempt numbers 1, 2, ... in order,
    each with the message of the error that attempt met. *)
Theorem upload_requests_bounded `{Host} (this : Command.t) (p : Payload) :
  Command.dryRun this = false ->
  let out := fst (uploadJUnitXML this p) in
  1 <= upload_requests (xmlPath p) out <= 6
  /\ (retry_notices (xmlPath p) out).*1
     = seq 1 (upload_requests (xmlPath p) out - 1)
  /\ forall n msg, (n, msg) ∈ retry_notices (xmlPath p) out ->
       exists e, intake (xmlPath p) n = Some e /\ message e = msg /\ retryable e.
Proof.
  intros live out.
  destruct (uploadJUnitXML_shape this p live)
    as (es & tail & r & Hlen & Hes & Hu & Hend).
  subst out. rewrite Hu. simpl.
  assert (Htail : upload_requests (xmlPath p) tail = 0
                  /\ retry_notices (xmlPath p) tail = []).
  { destruct Hend as [(-> & _)|[(e & -> & _)|(e & n & -> & _)]]; done. }
  destruct Htail as [Hreq Hnot].
  rewrite upload_requests_app, retry_notices_app.
  rewrite upload_requests_retried, retry_notices_retried. simpl.
  rewrite bool_decide_eq_true_2 by done. rewrite Hreq, Hnot, app_nil_r.
  replace (length es + (1 + 0) - 1) with (length es) by lia.
  split_and!; [lia|lia| |].
  - rewrite <- (length_fmap message es). apply fst_zip_seq.
  - intros n msg Hin. apply list_elem_of_lookup in Hin as [i Hi].
    apply lookup_zip_with_Some in Hi as (k & m & [= -> ->] & Hk & Hm).
    apply list_lookup_fmap_Some in Hm as (e & -> & He).
    apply lookup_seq in Hk as [-> _]. destruct (Hes i e He) as [Hi' Hr].
    exists e. by split_and!.
Qed.

Lemma upload_requests_bounded_witness :
  let flaky := fun n => if (n <=? 2)%nat then Some (Sample.status 502)
                        else Some (Sample.status 413) in
  let h := Sample.host "reports/single.xml" flaky in
  let this := @settled h Sample.penv
                (construct Sample.penv (Sample.options ["reports/single.xml"])) in
  let p := Sample.payload "reports/single.xml" in
  let out := fst (@uploadJUnitXML h this p) in
  1 <= upload_requests (xmlPath p) out <= 6
  /\ (retry_notices (xmlPath p) out).*1
     = seq 1 (upload_requests (xmlPath p) out - 1)
  /\ forall n msg, (n, msg) ∈ retry_notices (xmlPath p) out ->
       exists e, @intake h (xmlPath p) n = Some e /\ message e = msg /\ retryable e.
Proof.
  intros flaky h this p. apply (@upload_requests_bounded h this p). reflexivity.
Defined.

Lemma shape_requests (p : Payload) (es : list error) (tail : list line) :
  upload_requests (xmlPath p) tail = 0 ->
  upload_requests (xmlPath p) (retried p 1 es ++ renderUpload p :: tail)
  = S (length es).
Proof.
  intros Htail. rewrite upload_requests_app, upload_requests_retried. simpl.
  rewrite bool_decide_eq_true_2 by done. lia.
Qed.

(** X6.  Whatever the endpoint answers, an upload that is not a dry run ends
    in one of three ways.  It is sent: its last request succeeded.  It is
    skipped with an error that carries a status other than 400 and 403, and
    that one of its requests met.  It throws: the error is the one its last
    request met, it has no status or status 400 or 403, and it was not
    retried; an upload never throws for having used up its retries. *)
Theorem upload_outcome_classified `{Host} (this : Command.t) (p : Payload)
    (out : list line) (r : res upload_end) :
  Command.dryRun this = false ->
  uploadJUnitXML this p = (out, r) ->
  match r with
  | Ok Sent => intake (xmlPath p) (upload_requests (xmlPath p) out) = None
  | Ok (Skipped e) =>
      (exists status, response e = Some status
                      /\ status <> 400%Z /\ status <> 403%Z)
      /\ exists n, 1 <= n <= upload_requests (xmlPath p) out
                   /\ intake (xmlPath p) n = Some e
  | Throw e =>
      (response e = None \/ response e = Some 400%Z \/ response e = Some 403%Z)
      /\ ~ retryable e
      /\ intake (xmlPath p) (upload_requests (xmlPath p) out) = Some e
  end.
Proof.
  intros live Hu.
  destruct (uploadJUnitXML_shape this p live)
    as (es & tail & r' & Hlen & Hes & Hu' & Hend).
  rewrite Hu in Hu'. injection Hu' as -> ->.
  destruct Hend as [(-> & -> & Hi)|[(e & -> & -> & Hstop & Hr & Hi)
                                   |(e & n & -> & -> & Hstop & Hn & Hi)]];
    rewrite shape_requests by done.
  - done.
  - split_and!; [by apply stops_upload_true|done|done].
  - split; [by apply stops_upload_false|]. by exists n.
Qed.

Lemma upload_outcome_classified_witness :
  let h := Sample.host "reports/single.xml" (Sample.always (Sample.status 403)) in
  let this := @settled h Sample.penv
                (construct Sample.penv (Sample.options ["reports/single.xml"])) in
  let p := Sample.payload "reports/single.xml" in
  (response (Sample.status 403) = None
   \/ response (Sample.status 403) = Some 400%Z
   \/ response (Sample.status 403) = Some 403%Z)
  /\ ~ retryable (Sample.status 403)
  /\ @intake h (xmlPath p)
       (upload_requests (xmlPath p)
          [Upload "reports/single.xml";
           FailedUpload "reports/single.xml" (Sample.status 403)])
     = Some (Sample.status 403).
Proof.
  intros h this p.
  apply (@upload_outcome_classified h this p
           [Upload "reports/single.xml";
            FailedUpload "reports/single.xml" (Sample.status 403)]
           (Throw (Sample.status 403)));
    reflexivity.
Defined.

Lemma retried_no_failure_line (p : Payload) (num : nat) (es : list error) :
  List.filter is_failure_line (retried p num es) = [].
Proof. revert num. induction es as [|e es IH]; intros num; [done|]. simpl. apply IH. Qed.

Lemma retried_line_path (p : Payload) (num : nat) (es : list error) :
  Forall (fun l => line_path l = Some (xmlPath p)) (retried p num es).
Proof.
  revert num. induction es as [|e es IH]; intros num; [constructor|].
  simpl. repeat constructor. apply IH.
Qed.

(** X7.  An upload writes a failure line exactly when it does not end as
    sent: then there is one such line, it is the last line written and it
    carries the error the upload is skipped with or throws. *)
Theorem upload_failure_line `{Host} (this : Command.t) (p : Payload)
    (out : list line) (r : res upload_end) :
  uploadJUnitXML this p = (out, r) ->
  match r with
  | Ok Sent => List.filter is_failure_line out = []
  | Ok (Skipped e) | Throw e =>
      List.filter is_failure_line out = [renderFailedUpload p e]
      /\ last out = Some (renderFailedUpload p e)
  end.
Proof.
  intros Hu. destruct (Command.dryRun this) eqn:Hdry.
  - rewrite (uploadJUnitXML_dryRun this p Hdry) in Hu. by injection Hu as <- <-.
  - destruct (uploadJUnitXML_shape this p Hdry)
      as (es & tail & r' & Hlen & Hes & Hu' & Hend).
    rewrite Hu in Hu'. injection Hu' as -> ->.
    rewrite List.filter_app, retried_no_failure_line. simpl.
    destruct Hend as [(-> & -> & _)|[(e & -> & -> & _)|(e & n & -> & -> & _)]].
    + done.
    + split; [done|].
      change (renderUpload p :: [renderFailedUpload p e])
        with ([renderUpload p] ++ [renderFailedUpload p e]).
      by rewrite (assoc_L (++)), last_snoc.
    + split; [done|].
      change (renderUpload p :: [renderFailedUpload p e])
        with ([renderUpload p] ++ [renderFailedUpload p e]).
      by rewrite (assoc_L (++)), last_snoc.
Qed.

Lemma upload_failure_line_witness :
  let flaky := fun n => if (n <=? 1)%nat then Some (Sample.status 500)
                        else Some (Sample.status 413) in
  let h := Sample.host "reports/single.xml" flaky in
  let this := @settled h Sample.penv
                (construct Sample.penv (Sample.options ["reports/single.xml"])) in
  let p := Sample.payload "reports/single.xml" in
  let out := [Upload "reports/single.xml";
              RetriedUpload "reports/single.xml" "Request failed" 1;
              Upload "reports/single.xml";
              FailedUpload "reports/single.xml" (Sample.status 413)] in
  List.filter is_failure_line out = [renderFailedUpload p (Sample.status 413)]
  /\ last out = Some (renderFailedUpload p (Sample.status 413)).
Proof.
  intros flaky h this p out.
  apply (@upload_failure_line h this p out (Ok (Skipped (Sample.status 413)))).
  reflexivity.
Defined.

(** X8.  Every line an upload writes is about its own file, whatever the
    endpoint answers and in a dry run too: an upload never writes the summary
    or a line about another file. *)
Theorem upload_lines_own_file `{Host} (this : Command.t) (p : Payload) :
  Forall (fun l => line_path l = Some (xmlPath p)) (fst (uploadJUnitXML this p)).
Proof.
  destruct (Command.dryRun this) eqn:Hdry.
  - rewrite (uploadJUnitXML_dryRun this p Hdry). by repeat constructor.
  - destruct (uploadJUnitXML_shape this p Hdry)
      as (es & tail & r & Hlen & Hes & Hu & Hend).
    rewrite Hu. simpl. apply Forall_app. split; [apply retried_line_path|].
    constructor; [done|].
    destruct Hend as [(-> & _)|[(e & -> & _)|(e & n & -> & _)]];
      by repeat constructor.
Qed.

(** ** The batch and the exit code *)

Lemma retried_no_summary (p : Payload) (num : nat) (es : list error) :
  Forall (fun l => is_summary l = false) (retried p num es).
Proof.
  revert num. induction es as [|e es IH]; intros num; [constructor|].
  simpl. repeat constructor. apply IH.
Qed.

Section BatchFacts.
Context `{Host}.
Variable this : Command.t.

Lemma uploadJUnitXML_no_summary (p : Payload) :
  Forall (fun l => is_summary l = false) (fst (uploadJUnitXML this p)).
Proof.
  destruct (Command.dryRun this) eqn:Hdry.
  - rewrite (uploadJUnitXML_dryRun this p Hdry). by repeat constructor.
  - destruct (uploadJUnitXML_shape this p Hdry)
      as (es & tail & r & _ & _ & Hu & Hend).
    rewrite Hu. simpl. apply Forall_app. split; [apply retried_no_summary|].
    constructor; [done|].
    destruct Hend as [(-> & _)|[(e & -> & _)|(e & n & -> & _)]];
      by repeat constructor.
Qed.

Lemma asyncPool_no_summary (limit : nat) (payloads : list Payload) :
  Forall (fun l => is_summary l = false)
    (fst (asyncPool limit payloads (uploadJUnitXML this))).
Proof.
  induction payloads as [|p payloads IH]; [constructor|].
  rewrite asyncPool_cons. pose proof (uploadJUnitXML_no_summary p) as Hp.
  destruct (uploadJUnitXML this p) as [o [r|e]]; [|done].
  destruct (asyncPool limit payloads _) as [o' rs]. simpl in *.
  apply Forall_app. by split.
Qed.

Lemma asyncPool_thrown (limit : nat) (payloads : list Payload) o e :
  asyncPool limit payloads (uploadJUnitXML this) = (o, Throw e) ->
  exists p o', p ∈ payloads /\ uploadJUnitXML this p = (o', Throw e).
Proof.
  revert o. induction payloads as [|p payloads IH]; intros o; [done|].
  rewrite asyncPool_cons.
  destruct (uploadJUnitXML this p) as [op [r|e']] eqn:Hp.
  - destruct (asyncPool limit payloads _) as [o' [rs|e']] eqn:Hrest; [done|].
    simpl. intros [= _ ->]. destruct (IH o' eq_refl) as (q & oq & Hq & Hu).
    exists q, oq. split; [by apply list_elem_of_further|done].
  - intros [= _ ->]. exists p, op. split; [apply list_elem_of_here|done].
Qed.

Lemma asyncPool_returns (limit : nat) (payloads : list Payload) :
  (forall p, p ∈ payloads -> exists o r, uploadJUnitXML this p = (o, Ok r)) ->
  exists o rs, asyncPool limit payloads (uploadJUnitXML this) = (o, Ok rs).
Proof.
  induction payloads as [|p payloads IH]; intros Hall; [by eexists _, _|].
  rewrite asyncPool_cons.
  destruct (Hall p (list_elem_of_here _ _)) as (o & r & ->).
  destruct IH as (o' & rs & ->); [|by eexists _, _].
  intros q Hq. apply Hall. by apply list_elem_of_further.
Qed.

End BatchFacts.

Lemma filter_summary_app (o : list line) (n : nat) :
  Forall (fun l => is_summary l = false) o ->
  List.filter is_summary (o ++ [renderSuccessfulCommand n])
  = [renderSuccessfulCommand n].
Proof.
  intros Ho. rewrite List.filter_app. simpl.
  induction Ho as [|l o Hl _ IH]; [done|]. simpl. by rewrite Hl.
Qed.

(** X9.  A batch completes exactly when the upload of every payload returns,
    sent or skipped; it then writes the summary once, as its last line, with
    the number of payloads.  When it throws, the error is one thrown by the
    upload of one of its payloads, and no summary is written. *)
Theorem batch_completes_iff `{Host} (this : Command.t) (payloads : list Payload) :
  ((forall p, p ∈ payloads -> exists o r, uploadJUnitXML this p = (o, Ok r))
   <-> exists out, uploadAll this payloads = (out, Ok 0))
  /\ (forall out code, uploadAll this payloads = (out, Ok code) ->
        code = 0
        /\ List.filter is_summary out = [renderSuccessfulCommand (length payloads)]
        /\ last out = Some (renderSuccessfulCommand (length payloads)))
  /\ (forall out e, uploadAll this payloads = (out, Throw e) ->
        (exists p o, p ∈ payloads /\ uploadJUnitXML this p = (o, Throw e))
        /\ Forall (fun l => is_summary l = false) out).
Proof.
  split_and!.
  - split.
    + intros Hall.
      destruct (asyncPool_returns this (Command.maxConcurrency this) payloads Hall)
        as (o & rs & Hpool).
      unfold uploadAll. rewrite Hpool. io_unfold. by eexists.
    + intros [out Hu] p Hp.
      apply uploadAll_completed in Hu as (o & results & Hpool & _).
      pose proof (asyncPool_ok this _ payloads o results Hpool) as HF.
      apply list_elem_of_lookup in Hp as [i Hi].
      destruct (Forall2_lookup_l _ _ _ _ _ HF Hi) as (r & _ & o' & Hup).
      by exists o', r.
  - intros out code Hu.
    apply uploadAll_completed in Hu as (o & results & Hpool & -> & ->).
    split_and!; [done| |by rewrite last_snoc].
    apply filter_summary_app.
    pose proof (asyncPool_no_summary this (Command.maxConcurrency this) payloads)
      as Hno. by rewrite Hpool in Hno.
  - intros out e Hu. unfold uploadAll in Hu.
    pose proof (asyncPool_no_summary this (Command.maxConcurrency this) payloads)
      as Hno.
    destruct (asyncPool _ payloads _) as [o [rs|e']] eqn:Hpool;
      io_unfold; [done|].
    injection Hu as <- <-. split; [|done]. by eapply asyncPool_thrown.
Qed.

(** ** The filter, line by line *)

Section FilterFacts.
Context `{Host}.

Lemma filterValid_cons (f : string) (rest : list string) :
  filterValid (f :: rest) =
  match validateXml f with
  | Throw e => ([], Throw e)
  | Ok m =>
      let '(o, r) := filterValid rest in
      if truthy truthy_str m
      then (renderInvalidFile f (default EmptyString m) :: o, r)
      else (o, match r with Ok kept => Ok (f :: kept) | Throw e => Throw e end)
  end.
Proof.
  cbn [filterValid]. destruct (validateXml f) as [[msg|]|e]; [| |done].
  - cbn [truthy]. destruct (truthy_str msg); io_unfold;
      destruct (filterValid rest) as [o [kept|e]]; simpl; by rewrite ?app_nil_r.
  - io_unfold. destruct (filterValid rest) as [o [kept|e]]; simpl;
      by rewrite ?app_nil_r.
Qed.

Lemma filterValid_lines (files : list string) :
  Forall (fun l => is_invalid_line l = true) (fst (filterValid files)).
Proof.
  induction files as [|f rest IH]; [constructor|].
  rewrite filterValid_cons. destruct (validateXml f) as [m|e]; [|constructor].
  destruct (filterValid rest) as [o r]. simpl in IH.
  destruct (truthy truthy_str m); simpl; [by constructor|done].
Qed.

Lemma filterValid_thrown (files : list string) :
  (exists x e, x ∈ files /\ readFileSync x = Throw e) ->
  exists out y e', filterValid files = (out, Throw e')
    /\ y ∈ files /\ readFileSync y = Throw e'.
Proof.
  induction files as [|f rest IH]; intros (x & e & Hx & Hread).
  { by apply elem_of_nil in Hx. }
  rewrite filterValid_cons. unfold validateXml at 1.
  destruct (readFileSync f) as [c|ef] eqn:Hf.
  - apply elem_of_cons in Hx as [->|Hx]; [congruence|].
    destruct IH as (out & y & e' & -> & Hy & Hrd); [by exists x, e|].
    destruct (truthy truthy_str (validateContent c)); eexists _, y, e';
      (split_and!; [done|by apply list_elem_of_further|done]).
  - exists [], f, ef. split_and!; [done|apply list_elem_of_here|done].
Qed.

(** Over files without duplicates, the filter reports each invalid file once,
    with the validator's message, and no other file. *)
Lemma filterValid_reports (files : list string) out kept :
  NoDup files -> filterValid files = (out, Ok kept) ->
  (forall x msg, x ∈ files -> validateXml x = Ok (Some msg) ->
     truthy_str msg = true -> invalid_reports x out = [msg])
  /\ (forall x, x ∉ files \/ passes x = true -> invalid_reports x out = []).
Proof.
  revert out kept. induction files as [|f rest IH]; intros out kept Hnd.
  { cbn. io_unfold. intros [= <- _]. split; [|done].
    intros x msg Hx. by apply elem_of_nil in Hx. }
  apply NoDup_cons in Hnd as [Hf Hnd].
  rewrite filterValid_cons. destruct (validateXml f) as [m|e] eqn:Hv; [|done].
  destruct (filterValid rest) as [o r] eqn:Hrest.
  destruct (truthy truthy_str m) eqn:Ht.
  - intros [= <- ->]. destruct (IH o kept Hnd eq_refl) as [IHa IHb].
    destruct m as [msg|]; [|done]. simpl in Ht. split.
    + intros x msg' Hx Hvx Htx. apply elem_of_cons in Hx as [->|Hx].
      * rewrite Hv in Hvx. injection Hvx as <-. simpl.
        rewrite bool_decide_eq_true_2 by done. f_equal. apply IHb. by left.
      * simpl. rewrite bool_decide_eq_false_2 by (intros ->; done). by apply IHa.
    + intros x Hx. simpl. case_bool_decide as Hfx.
      * subst x. destruct Hx as [Hx|Hx].
        -- exfalso. apply Hx, list_elem_of_here.
        -- unfold passes in Hx. rewrite Hv in Hx. simpl in Hx. by rewrite Ht in Hx.
      * apply IHb. destruct Hx as [Hx|Hx]; [left|by right].
        intros Hin. apply Hx. by apply list_elem_of_further.
  - destruct r as [kept'|e]; [|done]. intros [= <- _].
    destruct (IH o kept' Hnd eq_refl) as [IHa IHb]. split.
    + intros x msg' Hx Hvx Htx. apply elem_of_cons in Hx as [->|Hx]; [|by apply IHa].
      rewrite Hv in Hvx. injection Hvx as ->. simpl in Ht. congruence.
    + intros x Hx. destruct (decide (x = f)) as [->|Hne].
      * apply IHb. by left.
      * apply IHb. destruct Hx as [Hx|Hx]; [left|by right].
        intros Hin. apply Hx. by apply list_elem_of_further.
Qed.

Lemma getMatchingJUnitXMLFiles_eq (this : Command.t) :
  getMatchingJUnitXMLFiles this =
  match filterValid (set_spread (jUnitXMLFiles this)) with
  | (o, Ok kept) =>
      (o, Ok ((fun path => {| service := default EmptyString (Command.service this);
                              spanTags := spanTagsOf this;
                              xmlPath := path |}) <$> kept))
  | (o, Throw e) => (o, Throw e)
  end.
Proof.
  unfold getMatchingJUnitXMLFiles. io_unfold.
  destruct (filterValid _) as [o [kept|e]]; [|done]. by rewrite app_nil_r.
Qed.

End FilterFacts.

(** X10.  When [getMatchingJUnitXMLFiles] returns, all it has written are
    invalid-file lines: exactly one for each candidate that fails validation,
    however often the candidate was found, carrying the validator's message,
    and none for any other file. *)
Theorem invalid_files_reported_once `{Host} (this : Command.t)
    (out : list line) (payloads : list Payload) :
  getMatchingJUnitXMLFiles this = (out, Ok payloads) ->
  Forall (fun l => is_invalid_line l = true) out
  /\ (forall x msg, x ∈ jUnitXMLFiles this -> validateXml x = Ok (Some msg) ->
        truthy_str msg = true -> invalid_reports x out = [msg])
  /\ (forall x, x ∉ jUnitXMLFiles this \/ ~ fails_validation x ->
        invalid_reports x out = []).
Proof.
  rewrite getMatchingJUnitXMLFiles_eq.
  pose proof (filterValid_lines (set_spread (jUnitXMLFiles this))) as Hlines.
  destruct (filterValid _) as [o [kept|e]] eqn:Hf; [|done].
  intros [= <- _].
  destruct (filterValid_reports _ o kept (set_spread_NoDup _) Hf) as [Ha Hb].
  split_and!; [done| |].
  - intros x msg Hx. apply Ha. by apply set_spread_elem_of.
  - intros x Hx.
    destruct (decide (x ∈ jUnitXMLFiles this)) as [Hin|Hnin].
    + destruct Hx as [Hx|Hx]; [done|].
      destruct (validateXml x) as [m|e] eqn:Hv.
      * apply Hb. right. by eapply passes_not_fails.
      * apply Hb. left. intros Hin'.
        assert (Hthrow : exists out' y e',
                  filterValid (set_spread (jUnitXMLFiles this)) = (out', Throw e')
                  /\ y ∈ set_spread (jUnitXMLFiles this)
                  /\ readFileSync y = Throw e').
        { apply filterValid_thrown. unfold validateXml in Hv.
          destruct (readFileSync x) as [c|e0] eqn:Hr; [done|]. by exists x, e0. }
        destruct Hthrow as (? & ? & ? & Hthrow & _). congruence.
    + apply Hb. left. by rewrite set_spread_elem_of.
Qed.

Lemma invalid_files_reported_once_witness :
  let h := Sample.host "reports/ok.xml" (fun _ => None) in
  let this :=
    construct Sample.penv
      (Sample.options ["reports"; "reports/page.xml"; "reports"]) in
  invalid_reports "reports/page.xml" (fst (@getMatchingJUnitXMLFiles h this))
  = [rootTagMessage].
Proof.
  intros h this.
  destruct (@getMatchingJUnitXMLFiles h this) as [out [payloads|e]] eqn:Hg;
    [|vm_compute in Hg; discriminate].
  destruct (@invalid_files_reported_once h this out payloads Hg) as (_ & Ha & _).
  apply Ha; [|reflexivity|reflexivity].
  apply jUnitXMLFiles_elem_of. exists "reports/page.xml".
  split; [|left; split_and!; [discriminate|reflexivity|reflexivity]].
  apply list_elem_of_further, list_elem_of_here.
Defined.

(** ** The command, step by step *)

Section StepFacts.
Context `{Host}.

Lemma renderCommandInfo_lines basePaths service concurrency dryRun :
  Forall (fun l => upload_phase l = false /\ is_invalid_line l = false)
    (renderCommandInfo basePaths service concurrency dryRun).
Proof.
  unfold renderCommandInfo.
  repeat (apply Forall_app; split).
  - destruct dryRun; by repeat constructor.
  - by repeat constructor.
  - destruct basePaths as [|b [|b' bs]]; [by repeat constructor| |by repeat constructor].
    destruct (truthy_str (extname b)); by repeat constructor.
  - by repeat constructor.
Qed.

(** [execute], past its checks. *)
Lemma execute_steps penv this :
  ready penv this ->
  execute penv this =
  match getMatchingJUnitXMLFiles (settled penv this) with
  | (o1, Ok payloads) =>
      let '(o2, r) := uploadAll (settled penv this) payloads in
      (info_of penv this ++ o1 ++ o2, r)
  | (o1, Throw e) => (info_of penv this ++ o1, Throw e)
  end.
Proof.
  intros (Hsvc & Hbase & Hkey). unfold execute.
  rewrite Hsvc. simpl. rewrite settle_service_basePaths.
  destruct (Command.basePaths this) as [|b bs] eqn:Hb; [done|].
  unfold getApiHelper. rewrite settle_apiKey, Hkey. simpl.
  fold (settled penv this). fold (info_of penv this). io_unfold. simpl.
  destruct (getMatchingJUnitXMLFiles (settled penv this)) as [o1 [payloads|e]];
    [|done].
  by destruct (uploadAll (settled penv this) payloads) as [o2 r].
Qed.



End StepFacts.

Lemma no_summary_of_invalid (o : list line) :
  Forall (fun l => is_invalid_line l = true) o ->
  Forall (fun l => is_summary l = false /\ upload_phase l = false) o.
Proof. intros Ho. eapply Forall_impl; [exact Ho|]. intros l Hl. by destruct l. Qed.

Lemma no_summary_of_info (o : list line) :
  Forall (fun l => upload_phase l = false /\ is_invalid_line l = false) o ->
  Forall (fun l => is_summary l = false) o.
Proof. intros Ho. eapply Forall_impl; [exact Ho|]. intros l [Hl _]. by destruct l. Qed.

Lemma filter_summary_nil (o : list line) :
  Forall (fun l => is_summary l = false) o -> List.filter is_summary o = [].
Proof. induction 1 as [|l o Hl _ IH]; [done|]. simpl. by rewrite Hl. Qed.

(** X11.  When one of the candidate files cannot be read, the run that has
    passed its checks throws the error of reading a candidate, before any
    upload: it writes no upload, dry-run, retry or failure line and no
    summary, and schedules nothing, even if other candidates are valid. *)
Theorem unreadable_candidate_aborts `{Host} (penv : ProcessEnv)
    (this : Command.t) (x : string) (e : error) :
  ready penv this ->
  x ∈ jUnitXMLFiles (settled penv this) ->
  readFileSync x = Throw e ->
  exists out y e',
    execute penv this = (out, Throw e')
    /\ y ∈ jUnitXMLFiles (settled penv this) /\ readFileSync y = Throw e'
    /\ Forall (fun l => upload_phase l = false) out.
Proof.
  intros Hready Hx Hread.
  destruct (filterValid_thrown (set_spread (jUnitXMLFiles (settled penv this))))
    as (o1 & y & e' & Hf & Hy & Hry).
  { exists x, e. split; [by apply set_spread_elem_of|done]. }
  pose proof (filterValid_lines (set_spread (jUnitXMLFiles (settled penv this))))
    as Hlines.
  rewrite Hf in Hlines. simpl in Hlines.
  exists (info_of penv this ++ o1), y, e'.
  split_and!; [|by apply set_spread_elem_of|done|].
  - rewrite (execute_steps penv this Hready), getMatchingJUnitXMLFiles_eq, Hf. done.
  - apply Forall_app. split.
    + eapply Forall_impl; [apply renderCommandInfo_lines|]. by intros l [? _].
    + eapply Forall_impl; [apply (no_summary_of_invalid _ Hlines)|].
      by intros l [_ ?].
Qed.

Lemma unreadable_candidate_aborts_witness :
  let h := Sample.host "reports/ok.xml" (fun _ => None) in
  let this :=
    construct Sample.penv (Sample.options ["reports/ok.xml"; "nightly.v2"]) in
  exists out y e',
    @execute h Sample.penv this = (out, Throw e')
    /\ y ∈ @jUnitXMLFiles h (@settled h Sample.penv this)
    /\ @readFileSync h y = Throw e'
    /\ Forall (fun l => upload_phase l = false) out.
Proof.
  intros h this.
  apply (@unreadable_candidate_aborts h Sample.penv this "nightly.v2"
           (Error "EISDIR: illegal operation on a directory, read" None)).
  - split_and!; [reflexivity|discriminate|reflexivity].
  - apply jUnitXMLFiles_elem_of. exists "nightly.v2".
    split; [apply list_elem_of_further, list_elem_of_here|].
    left. split_and!; [discriminate|reflexivity|reflexivity].
  - reflexivity.
Defined.



(** ** Where the service comes from *)

Lemma settle_env_service this :
  Command.service (settle_env this) = Command.service this.
Proof. unfold settle_env. by destruct (negb _). Qed.

Lemma settled_service `{Host} penv this :
  Command.service (settled penv this) = Command.service (settle_service penv this).
Proof.
  unfold settled, settle_basePaths, settle_env. simpl.
  by destruct (negb (truthy truthy_str (Config.env _))).
Qed.

(** X13.  The service of a run is the value of [--service] when it is given
    and not empty, whatever [DD_SERVICE] says, and the value of [DD_SERVICE]
    otherwise (the opposite of the explicit env, where the environment
    variable wins).  Every payload of a run that has passed its checks carries
    that service, which is not empty. *)
Theorem service_source `{Host} (penv : ProcessEnv) (o : Options) :
  let this := settled penv (construct penv o) in
  (forall s, opt_service o = Some s -> s <> EmptyString ->
     Command.service this = Some s)
  /\ (truthy truthy_str (opt_service o) = false ->
      Command.service this = DD_SERVICE penv)
  /\ (ready penv (construct penv o) ->
      forall out payloads p,
        getMatchingJUnitXMLFiles this = (out, Ok payloads) ->
        p ∈ payloads ->
        Command.service this = Some (service p) /\ service p <> EmptyString).
Proof.
  intros this. unfold this. rewrite settled_service.
  split_and!.
  - intros s Hs Hne. unfold settle_service. simpl. rewrite Hs. simpl.
    apply truthy_str_true in Hne. by rewrite Hne.
  - intros Hs. unfold settle_service. simpl. by rewrite Hs.
  - intros (Hsvc & _ & _) out payloads p Hg Hp.
    rewrite getMatchingJUnitXMLFiles_eq in Hg.
    destruct (filterValid _) as [o1 [kept|e]]; [|done].
    injection Hg as _ <-. apply list_elem_of_fmap in Hp as (x & -> & _).
    cbn [service]. rewrite settle_env_service.
    destruct (Command.service (settle_service penv (construct penv o)))
      as [s|]; [|done].
    cbn [truthy default] in *. split; [done|]. by apply truthy_str_true.
Qed.

Lemma service_source_witness :
  let h := Sample.host "reports/ok.xml" (fun _ => None) in
  let penv :=
    {| DATADOG_API_KEY := Some "key"; DD_API_KEY := None; DD_ENV := None;
       DD_TAGS := None; DD_SERVICE := Some "from-env" |} in
  Command.service (@settled h penv (construct penv (Sample.options ["reports"])))
  = Some "shop".
Proof.
  intros h penv.
  apply (proj1 (@service_source h penv (Sample.options ["reports"])) "shop");
    [reflexivity|discriminate].
Defined.

(** ** The keys of the merged tags *)

(** X14.  The keys of the merged tags are exactly the keys of the five
    sources: merging loses no key and invents none.  The explicit env entry
    is kept as it is, and without [--tags], [DD_TAGS] and an explicit env the
    payloads carry the CI tags over the git tags and nothing else. *)
Theorem spanTags_keys `{Host} (this : Command.t) :
  dom (spanTagsOf this)
  = dom (envObject this) ∪ dom (envVarTagsOf this) ∪ dom (cliTagsOf this)
      ∪ dom getCISpanTags ∪ dom getGitMetadata
  /\ envObject this ⊆ spanTagsOf this
  /\ (Command.tags this = None ->
      truthy truthy_str (Config.envVarTags (Command.config this)) = false ->
      truthy truthy_str (Config.env (Command.config this)) = false ->
      spanTagsOf this = getCISpanTags ∪ getGitMetadata).
Proof.
  unfold spanTagsOf, spread. simpl. split_and!.
  - rewrite !dom_union_L, dom_empty_L, (right_id_L ∅ (∪)). by rewrite !(assoc_L (∪)).
  - apply map_union_subseteq_l.
  - intros Htags Hvar Henv.
    assert (cliTagsOf this = ∅) as -> by (unfold cliTagsOf; by rewrite Htags).
    assert (envVarTagsOf this = ∅) as ->.
    { unfold envVarTagsOf.
      destruct (Config.envVarTags (Command.config this)) as [s|]; [|done].
      simpl in Hvar. by rewrite Hvar. }
    assert (envObject this = ∅) as ->.
    { unfold envObject.
      destruct (Config.env (Command.config this)) as [s|]; [|done].
      simpl in Henv. by rewrite Henv. }
    by rewrite !(left_id_L ∅ (∪)), (right_id_L ∅ (∪)).
Qed.

(** ** What the command announces *)

(** X15.  The command info announces the upload of one file exactly when
    there is a single base path and it has an extension; the candidates are
    then that path if it exists and nothing otherwise.  The dry-run banner is
    written exactly under [--dry-run]. *)
Theorem announcement_matches_discovery `{Host} (this : Command.t)
    (service : string) (b : string) :
  let info := renderCommandInfo (Command.basePaths this) service
                (Command.maxConcurrency this) (Command.dryRun this) in
  (WillUploadFile b ∈ info <->
     Command.basePaths this = [b] /\ extname b <> EmptyString)
  /\ (WillUploadFile b ∈ info ->
      jUnitXMLFiles this = if existsSync b then [b] else [])
  /\ (DryRunBanner ∈ info <-> Command.dryRun this = true).
Proof.
  intros info.
  assert (Hfile : WillUploadFile b ∈ info <->
            Command.basePaths this = [b] /\ extname b <> EmptyString).
  { unfold info, renderCommandInfo.
    destruct (Command.dryRun this), (Command.basePaths this) as [|b1 [|b2 bs]];
      try (destruct (truthy_str (extname b1)) eqn:He;
           [apply truthy_str_true in He|apply truthy_str_false in He]);
      cbn [app]; rewrite ?elem_of_cons, ?elem_of_nil;
      intuition (try discriminate; try congruence). }
  split_and!; [done| |].
  - intros Hin. apply Hfile in Hin as [Hb He].
    unfold jUnitXMLFiles. rewrite Hb. simpl. unfold candidates.
    apply truthy_str_true in He. by rewrite He.
  - unfold info, renderCommandInfo.
    destruct (Command.dryRun this), (Command.basePaths this) as [|b1 [|b2 bs]];
      try (destruct (truthy_str (extname b1)));
      cbn [app]; rewrite ?elem_of_cons, ?elem_of_nil;
      intuition (try discriminate; try congruence).
Qed.

(** ** Splitting the tag list *)

Lemma split_on_cons (sep : Ascii.ascii) (s : string) :
  exists h t, split_on sep s = h :: t.
Proof.
  destruct s as [|c s]; simpl; [by eexists _, _|].
  destruct (Ascii.eqb c sep); [by eexists _, _|].
  destruct (split_on sep s); by eexists _, _.
Qed.

Lemma join_on_cons (sep : Ascii.ascii) (h x : string) (t : list string) :
  join_on sep (h :: x :: t) = (h +:+ String sep (join_on sep (x :: t))).
Proof. done. Qed.

(** X16.  Splitting a string at a separator and joining the pieces with it
    gives the string back, and no piece holds the separator; splitting never
    gives an empty list, and a string without the separator is its own single
    piece (a [DD_TAGS] value without a comma is one tag).  Conversely, pieces
    that hold no separator, joined and split again, come back as they were. *)
Theorem split_on_join_on (sep : Ascii.ascii) (s : string) :
  join_on sep (split_on sep s) = s
  /\ Forall (fun piece => has_char sep piece = false) (split_on sep s)
  /\ split_on sep s <> []
  /\ (has_char sep s = false -> split_on sep s = [s])
  /\ (forall h t, Forall (fun piece => has_char sep piece = false) (h :: t) ->
        split_on sep (join_on sep (h :: t)) = h :: t).
Proof.
  split_and!.
  - induction s as [|c s IH]; [done|]. simpl.
    destruct (Ascii.eqb c sep) eqn:Hc.
    + apply Ascii.eqb_eq in Hc as ->.
      destruct (split_on_cons sep s) as (h & t & Hs). rewrite Hs in *.
      rewrite join_on_cons. rewrite IH. done.
    + destruct (split_on_cons sep s) as (h & t & Hs). rewrite Hs in *.
      destruct t as [|x t]; [unfold join_on in *; simpl in *; congruence|].
      rewrite join_on_cons in *. by rewrite <- IH.
  - induction s as [|c s IH]; [by repeat constructor|]. simpl.
    destruct (Ascii.eqb c sep) eqn:Hc; [by constructor|].
    destruct (split_on_cons sep s) as (h & t & Hs). rewrite Hs in *.
    apply Forall_cons in IH as [Hh Ht]. constructor; [|done].
    simpl. by rewrite Hc, Hh.
  - destruct (split_on_cons sep s) as (h & t & ->). done.
  - induction s as [|c s IH]; [done|]. simpl.
    destruct (Ascii.eqb c sep); [done|]. simpl. intros Hs. by rewrite IH.
  - intros h t. revert h. induction t as [|x t IH]; intros h Hall.
    + apply Forall_cons in Hall as [Hh _]. unfold join_on. simpl.
      induction h as [|c h IHh]; [done|]. simpl in *.
      destruct (Ascii.eqb c sep); [done|]. simpl in Hh. by rewrite IHh.
    + apply Forall_cons in Hall as [Hh Hxt]. rewrite join_on_cons.
      specialize (IH x Hxt).
      induction h as [|c h IHh].
      * simpl. rewrite Ascii.eqb_refl. by rewrite IH.
      * simpl in *. destruct (Ascii.eqb c sep); [done|]. simpl in Hh.
        by rewrite (IHh Hh).
Qed.

(** ** The order of the payloads *)

Lemma set_add_fold_sublist (xs acc : list string) :
  exists ys, fold_left set_add xs acc = acc ++ ys /\ ys `sublist_of` xs.
Proof.
  revert acc. induction xs as [|x xs IH]; intros acc; simpl.
  - exists []. by rewrite app_nil_r.
  - unfold set_add at 2. case_bool_decide.
    + destruct (IH acc) as (ys & -> & Hys). exists ys. split; [done|].
      by apply sublist_cons.
    + destruct (IH (acc ++ [x])) as (ys & -> & Hys). exists (x :: ys).
      split; [by rewrite <- (assoc_L (++))|]. by apply sublist_skip.
Qed.

Lemma filter_sublist {A} (f : A -> bool) (l : list A) :
  List.filter f l `sublist_of` l.
Proof.
  induction l as [|a l IH]; [done|]. simpl.
  destruct (f a); [by apply sublist_skip|by apply sublist_cons].
Qed.

Lemma fmap_xmlPath (svc : string) (tags : gmap string string)
    (kept : list string) :
  xmlPath <$> ((fun path => {| service := svc; spanTags := tags;
                               xmlPath := path |}) <$> kept) = kept.
Proof. induction kept as [|x kept IH]; [done|]. cbn. by rewrite IH. Qed.

(** X17.  The payloads come in the order in which their files are found:
    their paths, read in order, are picked from the list of candidates without
    reordering, so the files of an earlier base path are scheduled before the
    new files of a later one.  All payloads carry the same service and the
    same merged tags. *)
Theorem payloads_in_candidate_order `{Host} (this : Command.t)
    (out : list line) (payloads : list Payload) :
  getMatchingJUnitXMLFiles this = (out, Ok payloads) ->
  (xmlPath <$> payloads) `sublist_of` jUnitXMLFiles this
  /\ (forall p q, p ∈ payloads -> q ∈ payloads ->
        service p = service q /\ spanTags p = spanTags q)
  /\ (forall before after,
        Command.basePaths this = before ++ after ->
        exists n, take n (xmlPath <$> payloads)
                  = List.filter passes
                      (set_spread (fold_left candidates before []))).
Proof.
  rewrite getMatchingJUnitXMLFiles_eq.
  destruct (filterValid _) as [o [kept|e]] eqn:Hf; [|done].
  intros [= <- <-]. apply filterValid_ok in Hf as ->.
  rewrite fmap_xmlPath.
  split_and!.
  - etrans; [apply filter_sublist|].
    destruct (set_add_fold_sublist (jUnitXMLFiles this) []) as (ys & Hys & Hsub).
    unfold set_spread. by rewrite Hys.
  - intros p q Hp Hq.
    apply list_elem_of_fmap in Hp as (x & -> & _).
    apply list_elem_of_fmap in Hq as (y & -> & _). done.
  - intros before after Hb. unfold jUnitXMLFiles, set_spread.
    rewrite Hb, fold_left_app.
    set (c1 := fold_left candidates before []).
    assert (Hc : exists c2, fold_left candidates after c1 = c1 ++ c2).
    { clear. generalize c1. induction after as [|b after IH]; intros c.
      - exists []. by rewrite app_nil_r.
      - simpl. rewrite candidates_contribution.
        destruct (IH (c ++ contribution b)) as [c2 ->].
        exists (contribution b ++ c2). by rewrite (assoc_L (++)). }
    destruct Hc as [c2 ->]. rewrite fold_left_app.
    destruct (set_add_fold_sublist c2 (fold_left set_add c1 [])) as (ys & -> & _).
    rewrite List.filter_app.
    exists (length (List.filter passes (fold_left set_add c1 []))).
    by rewrite take_app_length.
Qed.

Lemma payloads_in_candidate_order_witness :
  let h := Sample.host "reports/ok.xml" (fun _ => None) in
  let this :=
    construct Sample.penv (Sample.options ["nightly.v2/a.xml"; "reports"]) in
  match @getMatchingJUnitXMLFiles h this with
  | (_, Ok payloads) =>
      (xmlPath <$> payloads) `sublist_of` @jUnitXMLFiles h this
  | (_, Throw _) => False
  end.
Proof.
  intros h this.
  destruct (@getMatchingJUnitXMLFiles h this) as [out [payloads|e]] eqn:Hg.
  - apply (proj1 (@payloads_in_candidate_order h this out payloads Hg)).
  - vm_compute in Hg. discriminate.
Defined.

Lemma getMatchingJUnitXMLFiles_paths `{Host} (this : Command.t) out payloads :
  getMatchingJUnitXMLFiles this = (out, Ok payloads) ->
  xmlPath <$> payloads = List.filter passes (set_spread (jUnitXMLFiles this)).
Proof.
  rewrite getMatchingJUnitXMLFiles_eq.
  destruct (filterValid _) as [o [kept|e]] eqn:Hf; [|done].
  intros [= _ <-]. apply filterValid_ok in Hf as ->. apply fmap_xmlPath.
Qed.

(** X18.  The order of the base paths, and giving a base path more than once,
    change neither which files are scheduled nor how many: two runs over the
    same set of base paths schedule the same payload paths, up to order. *)
Theorem payload_set_ignores_order `{Host} (this1 this2 : Command.t)
    (o1 o2 : list line) (ps1 ps2 : list Payload) :
  (forall b, b ∈ Command.basePaths this1 <-> b ∈ Command.basePaths this2) ->
  getMatchingJUnitXMLFiles this1 = (o1, Ok ps1) ->
  getMatchingJUnitXMLFiles this2 = (o2, Ok ps2) ->
  (xmlPath <$> ps1) ≡ₚ (xmlPath <$> ps2) /\ length ps1 = length ps2.
Proof.
  intros Hsame Hg1 Hg2.
  apply getMatchingJUnitXMLFiles_paths in Hg1, Hg2.
  assert (Hperm : (xmlPath <$> ps1) ≡ₚ (xmlPath <$> ps2)).
  { rewrite Hg1, Hg2. apply NoDup_Permutation.
    - apply NoDup_ListNoDup, List.NoDup_filter, NoDup_ListNoDup, set_spread_NoDup.
    - apply NoDup_ListNoDup, List.NoDup_filter, NoDup_ListNoDup, set_spread_NoDup.
    - intros x. rewrite !list_elem_of_In, !List.filter_In, <- !list_elem_of_In.
      rewrite !set_spread_elem_of, !jUnitXMLFiles_elem_of.
      split; intros [(b & Hb & Hx) Hp]; (split; [|done]);
        exists b; (split; [by apply Hsame|done]). }
  split; [done|].
  apply Permutation_length in Hperm. by rewrite !length_fmap in Hperm.
Qed.

Lemma payload_set_ignores_order_witness :
  let h := Sample.host "reports/ok.xml" (fun _ => None) in
  let this1 :=
    construct Sample.penv (Sample.options ["reports"; "nightly.v2/a.xml"]) in
  let this2 :=
    construct Sample.penv
      (Sample.options ["nightly.v2/a.xml"; "reports"; "nightly.v2/a.xml"]) in
  match @getMatchingJUnitXMLFiles h this1, @getMatchingJUnitXMLFiles h this2 with
  | (_, Ok ps1), (_, Ok ps2) =>
      (xmlPath <$> ps1) ≡ₚ (xmlPath <$> ps2) /\ length ps1 = length ps2
  | _, _ => False
  end.
Proof.
  intros h this1 this2.
  destruct (@getMatchingJUnitXMLFiles h this1) as [o1 [ps1|e1]] eqn:Hg1;
    [|vm_compute in Hg1; discriminate].
  destruct (@getMatchingJUnitXMLFiles h this2) as [o2 [ps2|e2]] eqn:Hg2;
    [|vm_compute in Hg2; discriminate].
  apply (@payload_set_ignores_order h this1 this2 o1 o2 ps1 ps2); [|done|done].
  intros b. unfold this1, this2. simpl.
  rewrite !elem_of_cons, !elem_of_nil. tauto.
Defined.

(** ** What is scheduled, and how much is sent *)

(** X19.  Every payload scheduled is a file that could be read and that the
    validator accepted: its content is well-formed and holds a filled
    [testsuites] or [testsuite] entry.  The one exception the code leaves is a
    content the parser rejects with an empty message, which the filter takes
    for no message.  A file with the fixed root-tag message is never
    scheduled. *)
Theorem scheduled_files_are_valid `{Host} (this : Command.t)
    (out : list line) (payloads : list Payload) (p : Payload) :
  getMatchingJUnitXMLFiles this = (out, Ok payloads) ->
  p ∈ payloads ->
  exists content,
    readFileSync (xmlPath p) = Ok content
    /\ ((well_formed content
         /\ (root_filled "testsuites" content \/ root_filled "testsuite" content))
        \/ xml_validate content = VErr EmptyString)
    /\ validateXml (xmlPath p) <> Ok (Some rootTagMessage).
Proof.
  intros Hg Hp.
  pose proof (getMatchingJUnitXMLFiles_paths this out payloads Hg) as Hpaths.
  assert (Hx : xmlPath p ∈ xmlPath <$> payloads) by by apply list_elem_of_fmap_2.
  rewrite Hpaths in Hx.
  apply list_elem_of_In, List.filter_In in Hx as [_ Hpass].
  unfold passes, validateXml in *.
  destruct (readFileSync (xmlPath p)) as [content|e]; [|done].
  exists content. split; [done|].
  destruct (validateContent content) as [msg|] eqn:Hv.
  - simpl in Hpass. apply negb_true_iff, truthy_str_false in Hpass as ->.
    split; [|by intros [= ?]]. right.
    unfold validateContent in Hv. destruct (xml_validate content) as [|m].
    + by destruct (_ && _).
    + by injection Hv as ->.
  - split; [|done]. left. by apply validateContent_None.
Qed.

Lemma scheduled_files_are_valid_witness :
  let h := Sample.host "reports/ok.xml" (fun _ => None) in
  let this := construct Sample.penv (Sample.options ["reports"]) in
  match @getMatchingJUnitXMLFiles h this with
  | (_, Ok (p :: _)) =>
      exists content,
        @readFileSync h (xmlPath p) = Ok content
        /\ ((@well_formed h content
             /\ (@root_filled h "testsuites" content
                 \/ @root_filled h "testsuite" content))
            \/ @xml_validate h content = VErr EmptyString)
        /\ @validateXml h (xmlPath p) <> Ok (Some rootTagMessage)
  | _ => False
  end.
Proof.
  intros h this.
  destruct (@getMatchingJUnitXMLFiles h this) as [out [[|p ps]|e]] eqn:Hg;
    [vm_compute in Hg; discriminate| |vm_compute in Hg; discriminate].
  apply (@scheduled_files_are_valid h this out (p :: ps) p Hg).
  apply list_elem_of_here.
Defined.

Lemma requests_made_app (o1 o2 : list line) :
  requests_made (o1 ++ o2) = requests_made o1 + requests_made o2.
Proof. unfold requests_made. by rewrite List.filter_app, length_app. Qed.

Lemma requests_made_retried (p : Payload) (num : nat) (es : list error) :
  requests_made (retried p num es) = length es.
Proof.
  revert num. induction es as [|e es IH]; intros num; [done|].
  unfold requests_made in *. simpl. by rewrite IH.
Qed.

Lemma uploadJUnitXML_requests_made `{Host} (this : Command.t) (p : Payload) :
  requests_made (fst (uploadJUnitXML this p)) <= 6
  /\ (Command.dryRun this = true -> requests_made (fst (uploadJUnitXML this p)) = 0).
Proof.
  destruct (Command.dryRun this) eqn:Hdry.
  - rewrite (uploadJUnitXML_dryRun this p Hdry). simpl.
    unfold requests_made. simpl. split; [lia|done].
  - split; [|done].
    destruct (uploadJUnitXML_shape this p Hdry)
      as (es & tail & r & Hlen & _ & Hu & Hend).
    rewrite Hu. simpl. rewrite requests_made_app, requests_made_retried.
    assert (requests_made (renderUpload p :: tail) = 1); [|lia].
    destruct Hend as [(-> & _)|[(e & -> & _)|(e & n & -> & _)]]; done.
Qed.

(** X20.  A batch makes at most six requests for each of its payloads,
    whatever the endpoint answers and however it ends, and none at all in a
    dry run. *)
Theorem batch_requests_bounded `{Host} (this : Command.t)
    (payloads : list Payload) :
  requests_made (fst (uploadAll this payloads)) <= 6 * length payloads
  /\ (Command.dryRun this = true ->
      requests_made (fst (uploadAll this payloads)) = 0).
Proof.
  assert (Hpool : forall limit,
            requests_made (fst (asyncPool limit payloads (uploadJUnitXML this)))
            <= 6 * length payloads
            /\ (Command.dryRun this = true ->
                requests_made
                  (fst (asyncPool limit payloads (uploadJUnitXML this))) = 0)).
  { intros limit. induction payloads as [|p payloads [IH IHdry]].
    - simpl. io_unfold. unfold requests_made. simpl. split; [lia|done].
    - rewrite asyncPool_cons.
      destruct (uploadJUnitXML_requests_made this p) as [Hp Hpdry].
      destruct (uploadJUnitXML this p) as [o [r|e]]; simpl in *.
      + destruct (asyncPool limit payloads _) as [o' rs]. simpl in *.
        rewrite requests_made_app. split; [lia|].
        intros Hdry. rewrite (Hpdry Hdry), (IHdry Hdry). done.
      + split; [lia|done]. }
  unfold uploadAll. destruct (Hpool (Command.maxConcurrency this)) as [Hle Hdry].
  destruct (asyncPool _ payloads _) as [o [rs|e]]; io_unfold; simpl in *.
  - rewrite requests_made_app. unfold requests_made at 2. simpl.
    split; [lia|]. intros Hd. rewrite (Hdry Hd). done.
  - done.
Qed.

(** ** A fatal upload and the batch, under every schedule *)

Section AbortFacts.
Context `{Host}.
Variable this : Command.t.

(** What an upload throws is an error that stops the upload: it has no
    status, or status 400 or 403. *)
Lemma uploadJUnitXML_thrown_stops (q : Payload) (o : list line) (e : error) :
  uploadJUnitXML this q = (o, Throw e) -> stops_upload e = true.
Proof.
  intros Hu. destruct (Command.dryRun this) eqn:Hdry.
  - by rewrite (uploadJUnitXML_dryRun this q Hdry) in Hu.
  - destruct (uploadJUnitXML_shape this q Hdry)
      as (es & tail & r & _ & _ & Hu' & Hend).
    rewrite Hu in Hu'. injection Hu' as _ <-.
    destruct Hend as [(_ & [=] & _)|[(e' & _ & [= <-] & Hstop & _)
                                    |(e' & n & _ & [=] & _)]].
    done.
Qed.

(** The pool rejects as soon as the upload of one of its payloads throws. *)
Lemma asyncPool_rejects (limit : nat) (payloads : list Payload) (p : Payload)
    (o : list line) (e : error) :
  p ∈ payloads -> uploadJUnitXML this p = (o, Throw e) ->
  exists o' e', asyncPool limit payloads (uploadJUnitXML this) = (o', Throw e').
Proof.
  intros Hp Hu. induction payloads as [|q payloads IH].
  { by apply elem_of_nil in Hp. }
  rewrite asyncPool_cons.
  destruct (uploadJUnitXML this q) as [oq [r|eq]] eqn:Hq; [|by eexists _, _].
  apply elem_of_cons in Hp as [->|Hp]; [congruence|].
  destruct (IH Hp) as (o' & e' & ->). by eexists _, _.
Qed.

(** A batch with a payload whose upload throws does not complete: it throws
    an error thrown by the upload of one of its payloads, which is an error
    that stops the upload, and writes no summary. *)
Lemma uploadAll_aborts (payloads : list Payload) (p : Payload)
    (o : list line) (e : error) :
  p ∈ payloads -> uploadJUnitXML this p = (o, Throw e) ->
  exists out' e',
    uploadAll this payloads = (out', Throw e')
    /\ stops_upload e' = true
    /\ (exists q oq, q ∈ payloads /\ uploadJUnitXML this q = (oq, Throw e'))
    /\ List.filter is_summary out' = [].
Proof.
  intros Hp Hu.
  destruct (asyncPool_rejects (Command.maxConcurrency this) payloads p o e Hp Hu)
    as (o' & e' & Hpool).
  destruct (asyncPool_thrown this _ payloads o' e' Hpool) as (q & oq & Hq & Huq).
  pose proof (asyncPool_no_summary this (Command.maxConcurrency this) payloads)
    as Hno. rewrite Hpool in Hno.
  exists o', e'. split_and!.
  - by apply uploadAll_rejected.
  - by eapply uploadJUnitXML_thrown_stops.
  - by exists q, oq.
  - by apply filter_summary_nil.
Qed.

(** A batch in which every upload but a skipped one returns completes, with
    the skip among its results. *)
Lemma uploadAll_skips (payloads : list Payload) (p : Payload)
    (o : list line) (e : error) :
  p ∈ payloads -> uploadJUnitXML this p = (o, Ok (Skipped e)) ->
  (forall q, q ∈ payloads -> q <> p ->
     exists oq r, uploadJUnitXML this q = (oq, Ok r)) ->
  exists out' o' results,
    uploadAll this payloads = (out', Ok 0)
    /\ asyncPool (Command.maxConcurrency this) payloads (uploadJUnitXML this)
       = (o', Ok results)
    /\ Skipped e ∈ results
    /\ reported_count out' = Some (length payloads).
Proof.
  intros Hp Hu Hothers.
  destruct (asyncPool_returns this (Command.maxConcurrency this) payloads)
    as (o' & results & Hpool).
  { intros q Hq. destruct (decide (q = p)) as [->|Hne]; [by eexists _, _|].
    by apply Hothers. }
  exists (o' ++ [renderSuccessfulCommand (length payloads)]), o', results.
  split_and!; [|done| |apply reported_count_summary].
  - unfold uploadAll. rewrite Hpool. by io_unfold.
  - pose proof (asyncPool_ok this _ payloads o' results Hpool) as HF.
    apply list_elem_of_lookup in Hp as [i Hi].
    destruct (Forall2_lookup_l _ _ _ _ _ HF Hi) as (r & Hr & o'' & Hup).
    rewrite Hu in Hup. injection Hup as _ <-.
    by eapply list_elem_of_lookup_2.
Qed.

End AbortFacts.

(** [execute] ends as its batch ends when the batch throws. *)
Lemma execute_aborts `{Host} (penv : ProcessEnv) (this0 : Command.t)
    (o1 : list line) (payloads : list Payload) (p : Payload)
    (o : list line) (e : error) :
  ready penv this0 ->
  getMatchingJUnitXMLFiles (settled penv this0) = (o1, Ok payloads) ->
  p ∈ payloads -> uploadJUnitXML (settled penv this0) p = (o, Throw e) ->
  exists out' e',
    execute penv this0 = (out', Throw e')
    /\ stops_upload e' = true
    /\ (exists q oq, q ∈ payloads
          /\ uploadJUnitXML (settled penv this0) q = (oq, Throw e'))
    /\ List.filter is_summary out' = [].
Proof.
  intros Hready Hg Hp Hu.
  destruct (uploadAll_aborts (settled penv this0) payloads p o e Hp Hu)
    as (o2 & e' & Hall & Hstop & Hq & Hno).
  exists (info_of penv this0 ++ o1 ++ o2), e'. split_and!; [|done|done|].
  - by rewrite (execute_steps penv this0 Hready), Hg, Hall.
  - rewrite !List.filter_app, Hno, app_nil_r.
    rewrite (filter_summary_nil (info_of penv this0)).
    + simpl. apply filter_summary_nil.
      pose proof (filterValid_lines
                    (set_spread (jUnitXMLFiles (settled penv this0)))) as Hl.
      rewrite getMatchingJUnitXMLFiles_eq in Hg.
      destruct (filterValid _) as [o1' [kept|e0]]; [|done].
      injection Hg as <- _. simpl in Hl.
      eapply Forall_impl; [apply (no_summary_of_invalid _ Hl)|by intros l [? _]].
    + apply no_summary_of_info, renderCommandInfo_lines.
Qed.

(** C3.  A failure with status 400, 403 or 413 is never retried, however many
    attempts are left: the request that met it is the last one and no retry
    notice follows it.  With 413 the upload returns as a skip, so a batch in
    which the other uploads return completes, the skip among its results.
    With 400 or 403 the upload throws the error, and a batch that holds the
    payload does not complete under any schedule: the batch and [execute] end
    with a fatal error thrown by one of the uploads, and no summary is
    written. *)
Theorem no_retry_status_ends_upload `{Host} (this : Command.t) (p : Payload)
    (es : list error) (e : error) (status : Z) :
  Command.dryRun this = false ->
  fails_retryably (xmlPath p) es -> length es <= 5 ->
  intake (xmlPath p) (S (length es)) = Some e ->
  response e = Some status ->
  (status = 400 \/ status = 403 \/ status = 413)%Z ->
  let out := retried p 1 es ++ [renderUpload p; renderFailedUpload p e] in
  upload_requests (xmlPath p) out = S (length es)
  /\ retry_notices (xmlPath p) out = zip (seq 1 (length es)) (message <$> es)
  /\ (status = 413%Z ->
      uploadJUnitXML this p = (out, Ok (Skipped e))
      /\ forall payloads,
           p ∈ payloads ->
           (forall q, q ∈ payloads -> q <> p ->
              exists oq r, uploadJUnitXML this q = (oq, Ok r)) ->
           exists out' o' results,
             uploadAll this payloads = (out', Ok 0)
             /\ asyncPool (Command.maxConcurrency this) payloads
                  (uploadJUnitXML this) = (o', Ok results)
             /\ Skipped e ∈ results
             /\ reported_count out' = Some (length payloads))
  /\ (status = 400%Z \/ status = 403%Z ->
      uploadJUnitXML this p = (out, Throw e)
      /\ (forall payloads,
            p ∈ payloads ->
            exists out' e',
              uploadAll this payloads = (out', Throw e')
              /\ stops_upload e' = true
              /\ (exists q oq, q ∈ payloads
                    /\ uploadJUnitXML this q = (oq, Throw e'))
              /\ List.filter is_summary out' = [])
      /\ (forall penv this0 o1 payloads,
            this = settled penv this0 -> ready penv this0 ->
            getMatchingJUnitXMLFiles this = (o1, Ok payloads) ->
            p ∈ payloads ->
            exists out' e',
              execute penv this0 = (out', Throw e')
              /\ stops_upload e' = true
              /\ (exists q oq, q ∈ payloads
                    /\ uploadJUnitXML this q = (oq, Throw e'))
              /\ List.filter is_summary out' = [])).
Proof.
  intros live Hes Hlen Hi Hs Hstatus out.
  assert (Hnr : ~ retryable e).
  { apply (no_retry_status_not_retryable e status Hs).
    by destruct Hstatus as [->|[->| ->]]. }
  pose proof (uploadJUnitXML_bailed this p live es e Hes Hlen Hi Hnr) as Hu.
  fold out in Hu. unfold after_rejection, stops_upload in Hu. rewrite Hs in Hu.
  destruct (bailed_lines p es e) as [Hreq Hnot].
  split_and!; [done|done| |].
  - intros ->. change (includes 413 errorCodesStopUpload) with false in Hu.
    split; [done|]. intros payloads Hp Hothers.
    by apply (uploadAll_skips this payloads p out e).
  - intros H4.
    assert (Hthrow : uploadJUnitXML this p = (out, Throw e)).
    { by destruct H4 as [-> | ->]. }
    split_and!; [done| |].
    + intros payloads Hp. by apply (uploadAll_aborts this payloads p out e).
    + intros penv this0 o1 payloads -> Hready Hg Hp.
      by apply (execute_aborts penv this0 o1 payloads p out e).
Qed.

Lemma no_retry_status_ends_upload_witness :
  let h := Sample.host "reports/single.xml" (Sample.always (Sample.status 413)) in
  let this := @settled h Sample.penv
                (construct Sample.penv (Sample.options ["reports/single.xml"])) in
  let p := Sample.payload "reports/single.xml" in
  @uploadJUnitXML h this p =
  ([Upload "reports/single.xml";
    FailedUpload "reports/single.xml" (Sample.status 413)],
   Ok (Skipped (Sample.status 413))).
Proof.
  intros h this p.
  refine (proj1 (proj1 (proj2 (proj2
    (@no_retry_status_ends_upload h this p [] (Sample.status 413) 413%Z
       _ _ _ _ _ _))) _)).
  - reflexivity.
  - intros i e Hi. discriminate.
  - simpl. lia.
  - reflexivity.
  - reflexivity.
  - right. right. reflexivity.
  - reflexivity.
Defined.

(** C2, amended.  A failure that carries no status code is not retried: the
    attempt that met it is the last one, no retry notice follows it, the
    failure is reported, and the upload throws the error.  A batch that holds
    the payload then does not complete under any schedule: it throws a fatal
    error thrown by one of its uploads and writes no summary.  The retry
    budget is used up only by six failures that each carry a status outside
    400, 403 and 413, and the upload then ends as a skip. *)
Theorem failure_without_status_aborts `{Host} (this : Command.t) (p : Payload) :
  Command.dryRun this = false ->
  (forall es e,
     fails_retryably (xmlPath p) es -> length es <= 5 ->
     intake (xmlPath p) (S (length es)) = Some e ->
     response e = None ->
     let out := retried p 1 es ++ [renderUpload p; renderFailedUpload p e] in
     uploadJUnitXML this p = (out, Throw e)
     /\ upload_requests (xmlPath p) out = S (length es)
     /\ retry_notices (xmlPath p) out = zip (seq 1 (length es)) (message <$> es)
     /\ forall payloads,
          p ∈ payloads ->
          exists out' e',
            uploadAll this payloads = (out', Throw e')
            /\ stops_upload e' = true
            /\ (exists q oq, q ∈ payloads
                  /\ uploadJUnitXML this q = (oq, Throw e'))
            /\ List.filter is_summary out' = [])
  /\ (forall es,
        fails_retryably (xmlPath p) es -> length es = 6 ->
        exists m, m ∈ es /\ is_Some (response m)
          /\ uploadJUnitXML this p =
             (retried p 1 (take 5 es) ++ [renderUpload p; renderFailedUpload p m],
              Ok (Skipped m))).
Proof.
  intros live. split.
  - intros es e Hes Hlen Hi Hn out.
    destruct (no_status_not_retryable e Hn) as [Hnr Hstop].
    pose proof (uploadJUnitXML_bailed this p live es e Hes Hlen Hi Hnr) as Hu.
    fold out in Hu. unfold after_rejection in Hu. rewrite Hstop in Hu.
    destruct (bailed_lines p es e) as [Hreq Hnot].
    split_and!; [done..|].
    intros payloads Hp. by apply (uploadAll_aborts this payloads p out e).
  - intros es Hes Hlen.
    destruct (uploadJUnitXML_exhausted this p live es Hes Hlen)
      as (m & Hm & (status & Hs & _) & Hu).
    exists m. split_and!; [done|by rewrite Hs|done].
Qed.

Lemma failure_without_status_aborts_witness :
  let h := Sample.host "reports/single.xml" (Sample.always Sample.offline) in
  let this := @settled h Sample.penv
                (construct Sample.penv (Sample.options ["reports/single.xml"])) in
  let p := Sample.payload "reports/single.xml" in
  @uploadJUnitXML h this p =
  ([Upload "reports/single.xml";
    FailedUpload "reports/single.xml" Sample.offline],
   Throw Sample.offline).
Proof.
  intros h this p.
  refine (proj1 (proj1 (@failure_without_status_aborts h this p _)
                   [] Sample.offline _ _ _ _)).
  - reflexivity.
  - intros i e Hi. discriminate.
  - simpl. lia.
  - reflexivity.
  - reflexivity.
Defined.

(** C6 as stated fails: with the base paths [reports/ok.xml] and
    [nightly.v2], a directory on disk whose name has an extension, the
    directory is not expanded but taken as a file; reading it throws, and no
    payload is scheduled, though [reports/ok.xml] is a valid candidate. *)
Lemma directory_with_extension_schedules_nothing :
  ~ (forall (h : Host) (this : Command.t),
       exists out payloads,
         @getMatchingJUnitXMLFiles h this = (out, Ok payloads)
         /\ forall x, x ∈ (xmlPath <$> payloads) <->
              x ∈ @jUnitXMLFiles h this /\ ~ @fails_validation h x).
Proof.
  intros Hclaim.
  pose (h := Sample.host "reports/ok.xml" (fun _ => None)).
  pose (this := construct Sample.penv
                  (Sample.options ["reports/ok.xml"; "nightly.v2"])).
  destruct (Hclaim h this) as (out & payloads & Hg & _).
  assert (Hthrow : @getMatchingJUnitXMLFiles h this =
            ([], Throw (Error "EISDIR: illegal operation on a directory, read"
                          None)))
    by reflexivity.
  rewrite Hthrow in Hg. discriminate.
Qed.

(** C9 as stated fails: with [DD_ENV] set to the empty string and [--env]
    set to [prod], both are set and the explicit env is that of [--env]. *)
Lemma empty_DD_ENV_yields_to_option :
  ~ (forall (h : Host) (penv : ProcessEnv) (o : Options) (d c : string),
       DD_ENV penv = Some d -> opt_env o = Some c ->
       Config.env (Command.config (@settled h penv (construct penv o))) = Some d).
Proof.
  intros Hclaim.
  pose (h := Sample.host "reports/ok.xml" (fun _ => None)).
  pose (penv := {| DATADOG_API_KEY := Some "key"; DD_API_KEY := None;
                   DD_ENV := Some EmptyString; DD_TAGS := None;
                   DD_SERVICE := None |}).
  pose (o := {| opt_service := Some "shop"; opt_env := Some "prod";
                opt_dryRun := false; opt_tags := None;
                opt_basePaths := ["reports"]; opt_maxConcurrency := None |}).
  specialize (Hclaim h penv o EmptyString "prod" eq_refl eq_refl).
  assert (Hcode : Config.env (Command.config (@settled h penv (construct penv o)))
                  = Some "prod") by reflexivity.
  rewrite Hcode in Hclaim. discriminate.
Qed.
